(** * cortex: predictor loading, class resolution and signature validation

    A shallow embedding of [pkg/workloads/cortex/lib/api/predictor.py].

    Python objects that the code only inspects are kept abstract: a class is
    its attribute dictionary plus the behaviour of its constructor, a method
    is what [bool], [callable] and [inspect.getfullargspec] say about it.
    Exceptions are values of [Exn]; every function of the source is a
    computation in the state-and-exception monad [M], whose state is the
    store of the list objects that the contract tables hold (the source
    reads them through aliases). *)

From Stdlib Require Import String Ascii List Bool Lia Permutation.
From stdpp Require Import base option list strings gmap.

Local Open Scope string_scope.
Local Open Scope list_scope.

(** ** Strings *)

(** The double-quote character, as it occurs inside the f-strings. *)
Definition dq : string := String "034"%char EmptyString.

(** [sep.join(l)] *)
Fixpoint join (sep : string) (l : list string) : string :=
  match l with
  | [] => EmptyString
  | [x] => x
  | x :: rest => x +:+ sep +:+ join sep rest
  end.

(** [s.endswith(suffix)] *)
Definition endswith (s suffix : string) : bool :=
  let n := String.length s in
  let m := String.length suffix in
  if (m <=? n)%nat then String.eqb (substring (n - m) m s) suffix else false.

(** [s.startswith(prefix)] *)
Definition startswith (s pre : string) : bool := String.prefix pre s.

(** [os.path.join(a, b)] on POSIX paths. *)
Definition path_join (a b : string) : string :=
  if startswith b "/" then b
  else if String.eqb a EmptyString then b
  else if endswith a "/" then a +:+ b
  else a +:+ "/" +:+ b.

(** [x in l] for a list of strings. *)
Definition mem (x : string) (l : list string) : bool :=
  existsb (String.eqb x) l.

(** [sub] occurs in [s]. *)
Definition contains (s sub : string) : Prop :=
  exists pre post, s = pre +:+ sub +:+ post.

(** ** Exceptions *)

Inductive Exn : Type :=
| UserException (errors : list string)
| UserRuntimeException (errors : list string)
| NameError (name : string)
| UnboundLocalError (name : string)
| AttributeError (attr : string)
| KeyError (key : string)
| TypeError (msg : string)
| IndexError (msg : string)
| OtherException (msg : string)
| ReadonlyAttribute
| SystemExit (code : string)
| KeyboardInterrupt.

(** The exceptions that [except Exception] catches: every class above but
    [SystemExit] and [KeyboardInterrupt], which derive from [BaseException]
    only.  [ReadonlyAttribute] is the [AttributeError] that assigning to a
    read-only attribute raises. *)
Definition is_Exception (e : Exn) : bool :=
  match e with
  | SystemExit _ | KeyboardInterrupt => false
  | _ => true
  end.

(** Modelled from the spec: the exception classes of [cortex.lib.exceptions]
    are not part of the file.  A Cortex exception carries its messages in
    order; wrapping adds a contextual prefix and keeps the original. *)
Definition is_CortexException (e : Exn) : bool :=
  match e with
  | UserException _ | UserRuntimeException _ => true
  | _ => false
  end.

Definition wrap (e : Exn) (msg : string) : Exn :=
  match e with
  | UserException errors => UserException (msg :: errors)
  | UserRuntimeException errors => UserRuntimeException (msg :: errors)
  | other => other
  end.

(** [str(e)] *)
Definition str (e : Exn) : string :=
  match e with
  | UserException errors | UserRuntimeException errors => join ": " errors
  | NameError n => "name '" +:+ n +:+ "' is not defined"
  | UnboundLocalError n =>
      "local variable '" +:+ n +:+ "' referenced before assignment"
  | AttributeError a => "'Predictor' object has no attribute '" +:+ a +:+ "'"
  | KeyError k => "'" +:+ k +:+ "'"
  | TypeError m | IndexError m | OtherException m => m
  | ReadonlyAttribute => "readonly attribute"
  | SystemExit code => code
  | KeyboardInterrupt => EmptyString
  end.

(** ** The store and the monad *)

(** Addresses of list objects. *)
Definition loc := positive.

(** The store: the contents of every list object that a contract table
    refers to. *)
Abbreviation Heap := (gmap loc (list string)).

Inductive Result (A : Type) : Type :=
| Ok (a : A)
| Raise (e : Exn).
Arguments Ok {A} a.
Arguments Raise {A} e.

Definition M (A : Type) : Type := Heap -> Result A * Heap.

Definition ret {A} (a : A) : M A := fun h => (Ok a, h).

Definition raise {A} (e : Exn) : M A := fun h => (Raise e, h).

Definition bind {A B} (m : M A) (k : A -> M B) : M B :=
  fun h =>
    match m h with
    | (Ok a, h') => k a h'
    | (Raise e, h') => (Raise e, h')
    end.

Declare Scope py_scope.
Delimit Scope py_scope with py.
Notation "x <- c1 ;; c2" := (bind c1 (fun x => c2))
  (at level 100, c1 at next level, right associativity) : py_scope.
Notation "c1 ;;; c2" := (bind c1 (fun _ => c2))
  (at level 100, right associativity) : py_scope.
Local Open Scope py_scope.

(** [try: m except Exception as e: handler(e)] : an exception that is no
    [Exception] passes through. *)
Definition try_except {A} (m : M A) (handler : Exn -> M A) : M A :=
  fun h =>
    match m h with
    | (Ok a, h') => (Ok a, h')
    | (Raise e, h') =>
        if is_Exception e then handler e h' else (Raise e, h')
    end.

(** [try: m except CortexException as e: e.wrap(msg); raise] *)
Definition try_wrap {A} (m : M A) (msg : string) : M A :=
  try_except m
    (fun e => if is_CortexException e then raise (wrap e msg) else raise e).

(** The result of a call into a library or into user code. *)
Definition lift {A} (r : Result A) : M A := fun h => (r, h).

(** A [for] loop whose body returns nothing. *)
Fixpoint for_each {A} (body : A -> M unit) (l : list A) : M unit :=
  match l with
  | [] => ret tt
  | x :: rest => body x ;;; for_each body rest
  end.

(** A local variable that a branch may have left unassigned. *)
Definition read_local {A} (name : string) (v : option A) : M A :=
  match v with
  | Some a => ret a
  | None => raise (UnboundLocalError name)
  end.

(** A list variable: either an alias of a stored list object, or a list
    that the function itself created. *)
Inductive ListRef : Type :=
| Stored (l : loc)
| Fresh (items : list string).

Definition read_list (r : ListRef) (h : Heap) : list string :=
  match r with
  | Stored l => default [] (h !! l)
  | Fresh items => items
  end.

(** [r.append(x)] : in place when [r] is a stored object. *)
Definition list_append (r : ListRef) (x : string) : M ListRef :=
  fun h =>
    match r with
    | Stored l => (Ok (Stored l), <[l := default [] (h !! l) ++ [x]]> h)
    | Fresh items => (Ok (Fresh (items ++ [x])), h)
    end.

(** ** Python values that the code inspects *)

(** A class attribute, as seen by [bool(fn)], [callable(fn)] and
    [inspect.getfullargspec(fn).args] ([None] when [getfullargspec] rejects
    the callable with a [TypeError]). *)
Record PyObj : Type := {
  truthy : bool;
  is_callable : bool;
  fullargspec_args : option (list string)
}.

Definition py_None : PyObj :=
  {| truthy := false; is_callable := false; fullargspec_args := None |}.

(** A function defined with [def f(params): ...]. *)
Definition py_function (params : list string) : PyObj :=
  {| truthy := true; is_callable := true; fullargspec_args := Some params |}.

(** A non-callable object such as a number or a string. *)
Definition py_data (t : bool) : PyObj :=
  {| truthy := t; is_callable := false; fullargspec_args := None |}.

(** The free-form user configuration. *)
Definition Config := list (string * string).

(** ** Predictor kinds *)

Inductive PredictorType : Type :=
| PythonPredictorType
| TensorFlowPredictorType
| TensorFlowNeuronPredictorType
| ONNXPredictorType.

Global Instance PredictorType_eq_dec : EqDecision PredictorType.
Proof. solve_decision. Defined.

(** Modelled from the spec: the kind objects of [cortex.lib.api] are not part
    of the file.  The kind is resolved from [predictor.type]; both
    tensor-serving kinds go with the [tensorflow] discriminator and the
    [TensorFlowPredictor] class. *)
Definition discriminator (t : PredictorType) : string :=
  match t with
  | PythonPredictorType => "python"
  | TensorFlowPredictorType => "tensorflow"
  | TensorFlowNeuronPredictorType => "tensorflow"
  | ONNXPredictorType => "onnx"
  end.

(** [self.type == "..."] *)
Definition type_eq_str (t : PredictorType) (s : string) : bool :=
  String.eqb (discriminator t) s.

(** ** The API specification *)

(** The fields of the already parsed specification that the file reads:
    [predictor.path], [predictor.config] (may be absent),
    [predictor.model_path], [predictor.models.dir] and
    [predictor.models.paths]; [spec_type] is the kind that
    [predictor_type_from_api_spec] resolves. *)
Record ApiSpec : Type := {
  spec_type : PredictorType;
  spec_path : string;
  spec_config : option Config;
  spec_model_path : option string;
  spec_models_dir : option string;
  spec_models_paths : list string
}.

(** Modelled from the spec: [predictor_type_from_api_spec] is not part of
    the file; it resolves the kind discriminator of the specification. *)
Definition predictor_type_from_api_spec (api_spec : ApiSpec) : PredictorType :=
  spec_type api_spec.

(** ** Runtime clients *)

(** What a [Predictor] instance can hold under an attribute name. *)
Inductive AttrVal : Type :=
| AStr (s : string)
| AType (t : PredictorType)
| AConfig (c : Config)
| ASpec (a : ApiSpec).

(** The three client classes, by the arguments of their constructors. *)
Inductive Client : Type :=
| PythonClient
| TensorFlowClient (tf_serving_address : string)
| ONNXClient (models : AttrVal).

(** ** Classes, instances and modules *)

Inductive KwVal : Type :=
| KwClient (client : option Client)
| KwConfig (config : Config).

Definition Kwargs := list (string * KwVal).

(** A user class: [cls_name] is the name it is declared under
    ([cls.__name__]), [cls_attrs] is what [getattr(cls, name, None)] finds,
    [cls_init] is the exception, if any, that calling the class with the
    given keyword arguments raises. *)
Record Class : Type := {
  cls_name : string;
  cls_attrs : gmap string PyObj;
  cls_init : Kwargs -> option Exn
}.

Record Instance : Type := {
  inst_class : Class;
  inst_kwargs : Kwargs
}.

(** Calling the class with keyword arguments. *)
Definition call_class (cls : Class) (kwargs : Kwargs) : M Instance :=
  match cls_init cls kwargs with
  | Some e => raise e
  | None => ret {| inst_class := cls; inst_kwargs := kwargs |}
  end.

(** [getattr(impl, name, None)] *)
Definition getattr (impl : Class) (name : string) : PyObj :=
  default py_None (cls_attrs impl !! name).

Inductive ModAttr : Type :=
| AClass (c : Class)
| AOther (v : PyObj).

(** A module object: its attribute dictionary. *)
Abbreviation Module := (gmap string ModAttr).

(** [inspect.getmembers(impl, inspect.isclass)] : the (name, class) pairs of
    the attributes that are classes. *)
Definition getmembers_isclass (impl : Module) : list (string * Class) :=
  omap (fun nv => match nv.2 with
                  | AClass c => Some (nv.1, c)
                  | AOther _ => None
                  end) (map_to_list impl).

(** ** Contract tables *)

(** A predicate over (implementation, specification). *)
Definition Condition := Class -> ApiSpec -> bool.

Definition _condition_specified_models (impl : Class) (api_spec : ApiSpec) : bool :=
  if (match spec_model_path api_spec with Some _ => true | None => false end)
     || (match spec_models_dir api_spec with Some _ => true | None => false end)
     || (0 <? length (spec_models_paths api_spec))%nat
  then true
  else false.

(** One rule of a table.  The rule is a dictionary, so every key but the
    name may be absent; the list under [required_args] is a stored object,
    held by its address; [condition_args] keeps the insertion order of its
    keys. *)
Record FuncSignature : Type := {
  fs_name : string;
  fs_required_args : option loc;
  fs_optional_args : option (list string);
  fs_condition_args : option (list (string * Condition));
  fs_condition : option Condition
}.

Record ImplReq : Type := {
  req_optional : option (list FuncSignature);
  req_required : option (list FuncSignature);
  req_conditional : option (list FuncSignature)
}.

Definition predict_signature (l : loc) : FuncSignature :=
  {| fs_name := "predict";
     fs_required_args := Some l;
     fs_optional_args := Some ["payload"; "query_params"; "headers"];
     fs_condition_args := None;
     fs_condition := None |}.

Definition python_init_signature : FuncSignature :=
  {| fs_name := "__init__";
     fs_required_args := Some 1%positive;
     fs_optional_args := None;
     fs_condition_args := Some [("python_client", _condition_specified_models)];
     fs_condition := None |}.

Definition load_model_signature : FuncSignature :=
  {| fs_name := "load_model";
     fs_required_args := Some 3%positive;
     fs_optional_args := None;
     fs_condition_args := None;
     fs_condition := Some _condition_specified_models |}.

Definition PYTHON_CLASS_VALIDATION : ImplReq :=
  {| req_optional := None;
     req_required := Some [python_init_signature; predict_signature 2%positive];
     req_conditional := Some [load_model_signature] |}.

Definition tensorflow_init_signature : FuncSignature :=
  {| fs_name := "__init__";
     fs_required_args := Some 4%positive;
     fs_optional_args := None;
     fs_condition_args := None;
     fs_condition := None |}.

Definition TENSORFLOW_CLASS_VALIDATION : ImplReq :=
  {| req_optional := None;
     req_required :=
       Some [tensorflow_init_signature; predict_signature 5%positive];
     req_conditional := None |}.

Definition onnx_init_signature : FuncSignature :=
  {| fs_name := "__init__";
     fs_required_args := Some 6%positive;
     fs_optional_args := None;
     fs_condition_args := None;
     fs_condition := None |}.

Definition ONNX_CLASS_VALIDATION : ImplReq :=
  {| req_optional := None;
     req_required := Some [onnx_init_signature; predict_signature 7%positive];
     req_conditional := None |}.

(** The store when the module has been loaded: the seven [required_args]
    lists of the three tables. *)
Definition initial_heap : Heap :=
  list_to_map [
    (1%positive, ["self"; "config"]);
    (2%positive, ["self"]);
    (3%positive, ["self"; "model_path"]);
    (4%positive, ["self"; "tensorflow_client"; "config"]);
    (5%positive, ["self"]);
    (6%positive, ["self"; "onnx_client"; "config"]);
    (7%positive, ["self"]) ].

(** ** Module globals *)

(** What the global namespace of the module binds under the name
    [api_spec], the one name that a function of the file reads without
    having it as a parameter or a local. *)
Record Globals : Type := { g_api_spec : option ApiSpec }.

(** The file as written: no statement at module level binds [api_spec]. *)
Definition module_globals : Globals := {| g_api_spec := None |}.

(** Reading the name [api_spec] where it is neither parameter nor local. *)
Definition global_api_spec (g : Globals) : M ApiSpec :=
  match g_api_spec g with
  | Some a => ret a
  | None => raise (NameError "api_spec")
  end.

(** ** Error messages of the validator *)

Definition msg_not_defined (name : string) : string :=
  "required function " +:+ dq +:+ name +:+ dq +:+ " is not defined".

Definition msg_not_function (name : string) : string :=
  dq +:+ name +:+ dq +:+ " is defined, but is not a function".

Definition invalid_signature (fn_str : string) : string :=
  "invalid signature for function " +:+ dq +:+ fn_str +:+ dq +:+ ": ".

Definition msg_missing (fn_str arg_name : string) : string :=
  invalid_signature fn_str +:+ dq +:+ arg_name +:+ dq
    +:+ " is a required argument, but was not provided".

Definition msg_self_first (fn_str : string) : string :=
  invalid_signature fn_str +:+ dq +:+ "self" +:+ dq
    +:+ " must be the first argument".

Definition msg_unsupported (fn_str arg_name : string) : string :=
  invalid_signature fn_str +:+ dq +:+ arg_name +:+ dq
    +:+ " is not a supported argument".

Definition msg_duplicated (fn_str arg_name : string) : string :=
  invalid_signature fn_str +:+ dq +:+ arg_name +:+ dq +:+ " is duplicated".

(** The rendered signature: [name(arg, arg, ...)]. *)
Definition render_fn (name : string) (args : list string) : string :=
  name +:+ "(" +:+ join ", " args +:+ ")".

(** ** The signature validator *)

Section Validator.

Variable g : Globals.

(** The loop over [func_signature["condition_args"]].  The call expression
    names [api_spec], which is read before the predicate is called. *)
Fixpoint add_condition_args (impl : Class)
    (condition_args : list (string * Condition)) (required_args : ListRef)
    : M ListRef :=
  match condition_args with
  | [] => ret required_args
  | (arg_name, predicate) :: rest =>
      api_spec <- global_api_spec g ;;
      if predicate impl api_spec
      then (required_args' <- list_append required_args arg_name ;;
            add_condition_args impl rest required_args')
      else add_condition_args impl rest required_args
  end.

(** [required_args] as it stands when the argument checks begin:
    [func_signature.get("required_args", [])] and the names that the
    conditional-argument loop appended to it. *)
Definition effective_required_args (impl : Class)
    (func_signature : FuncSignature) : M ListRef :=
  let required_args :=
    match fs_required_args func_signature with
    | Some l => Stored l
    | None => Fresh []
    end in
  match fs_condition_args func_signature with
  | Some ((_ :: _) as condition_args) =>
      add_condition_args impl condition_args required_args
  | _ => ret required_args
  end.

(** Body of the loop over [required_args]. *)
Definition check_required_arg (fn_str : string) (argspec_args : list string)
    (arg_name : string) : M unit :=
  if negb (mem arg_name argspec_args)
  then raise (UserException [msg_missing fn_str arg_name])
  else if String.eqb arg_name "self"
  then match argspec_args with
       | [] => raise (IndexError "list index out of range")
       | first :: _ =>
           if negb (String.eqb first "self")
           then raise (UserException [msg_self_first fn_str])
           else ret tt
       end
  else ret tt.

(** The loop over [argspec.args], with [seen_args]. *)
Fixpoint check_formal_args (fn_str : string)
    (required_args optional_args : list string)
    (argspec_args : list string) (seen_args : list string) : M unit :=
  match argspec_args with
  | [] => ret tt
  | arg_name :: rest =>
      if negb (mem arg_name required_args) && negb (mem arg_name optional_args)
      then raise (UserException [msg_unsupported fn_str arg_name])
      else if mem arg_name seen_args
      then raise (UserException [msg_duplicated fn_str arg_name])
      else check_formal_args fn_str required_args optional_args rest
             (seen_args ++ [arg_name])
  end.

Definition _validate_required_fn_args (impl : Class)
    (func_signature : FuncSignature) : M unit :=
  let fn := getattr impl (fs_name func_signature) in
  if negb (truthy fn)
  then raise (UserException [msg_not_defined (fs_name func_signature)])
  else if negb (is_callable fn)
  then raise (UserException [msg_not_function (fs_name func_signature)])
  else
    let optional_args := default [] (fs_optional_args func_signature) in
    required_ref <- effective_required_args impl func_signature ;;
    match fullargspec_args fn with
    | None => raise (TypeError "unsupported callable")
    | Some argspec_args =>
        let fn_str := render_fn (fs_name func_signature) argspec_args in
        fun h =>
          let required_args := read_list required_ref h in
          (for_each (check_required_arg fn_str argspec_args) required_args ;;;
           check_formal_args fn_str required_args optional_args
             argspec_args []) h
    end.

Definition _validate_optional_fn_args (impl : Class)
    (func_signature : FuncSignature) : M unit :=
  if truthy (getattr impl (fs_name func_signature))
  then _validate_required_fn_args impl func_signature
  else ret tt.

(** Body of the loop over the conditional rules. *)
Definition validate_conditional (impl : Class) (api_spec : ApiSpec)
    (required_func_signature : FuncSignature) : M unit :=
  match fs_condition required_func_signature with
  | None => raise (KeyError "condition")
  | Some condition =>
      if condition impl api_spec
      then _validate_required_fn_args impl required_func_signature
      else ret tt
  end.

Definition _validate_impl (impl : Class) (impl_req : ImplReq)
    (api_spec : ApiSpec) : M unit :=
  for_each (_validate_optional_fn_args impl)
    (default [] (req_optional impl_req)) ;;;
  for_each (_validate_required_fn_args impl)
    (default [] (req_required impl_req)) ;;;
  for_each (validate_conditional impl api_spec)
    (default [] (req_conditional impl_req)).

End Validator.

(** ** The world outside the file *)

(** A key of an unpickled dictionary: a string, or an object of another
    type, given by the name of its type. *)
Inductive PKey : Type :=
| KStr (s : string)
| KOther (type_name : string).

(** What [dill.load] returns: a dictionary, given by its items in iteration
    order, or another object, given by the exception that iterating over it
    and indexing it raises. *)
Inductive Pickled : Type :=
| PDict (items : list (PKey * ModAttr))
| PNotDict (e : Exn).

(** The file system and the two loaders, each call either returning or
    raising; [w_set_class] is the exception, if any, that assigning the
    value to [__class__] of a module object raises (none for a subclass of
    the module type). *)
Record World : Type := {
  w_open : string -> Result string;
  w_dill_load : string -> Result Pickled;
  w_load_source : string -> string -> Result Module;
  w_set_class : ModAttr -> option Exn
}.

(** ** Predictor *)

(** The calls to [refresh_logger] in the [finally] clauses only touch the
    logger and are left out. *)

(** The attributes that [__init__] binds. *)
Record Predictor : Type := {
  self_provider : string;
  self_type : PredictorType;
  self_path : string;
  self_config : Config;
  self_model_dir : string;
  self_api_spec : ApiSpec
}.

Definition Predictor__init__ (provider model_dir : string) (api_spec : ApiSpec)
    : Predictor :=
  {| self_provider := provider;
     self_type := predictor_type_from_api_spec api_spec;
     self_path := spec_path api_spec;
     self_config := default [] (spec_config api_spec);
     self_model_dir := model_dir;
     self_api_spec := api_spec |}.

(** The instance dictionary: the six names of [__init__] and no other. *)
Definition Predictor__dict__ (self : Predictor) : gmap string AttrVal :=
  list_to_map [
    ("provider", AStr (self_provider self));
    ("type", AType (self_type self));
    ("path", AStr (self_path self));
    ("config", AConfig (self_config self));
    ("model_dir", AStr (self_model_dir self));
    ("api_spec", ASpec (self_api_spec self)) ].

(** [self.name] for a name that the class body does not define. *)
Definition getattr_self (self : Predictor) (name : string) : M AttrVal :=
  match Predictor__dict__ self !! name with
  | Some v => ret v
  | None => raise (AttributeError name)
  end.

(** Using a value as the specification mapping. *)
Definition as_api_spec (v : AttrVal) : M ApiSpec :=
  match v with
  | ASpec a => ret a
  | _ => raise (TypeError "string indices must be integers")
  end.

(** [a + ":" + b] on arguments that default to [None]. *)
Definition host_colon_port (a b : option string) : M string :=
  match a with
  | None =>
      raise (TypeError "unsupported operand type(s) for +: 'NoneType' and 'str'")
  | Some host =>
      match b with
      | None =>
          raise (TypeError
                   ("can only concatenate str (not " +:+ dq +:+ "NoneType"
                      +:+ dq +:+ ") to str"))
      | Some port => ret (host +:+ ":" +:+ port)
      end
  end.

Definition initialize_client (self : Predictor)
    (tf_serving_host tf_serving_port : option string) : M (option Client) :=
  let client : option Client := None in
  client <- (if decide (self_type self = PythonPredictorType)
             then ret (Some PythonClient)
             else ret client) ;;
  client <- (if decide (self_type self = TensorFlowPredictorType
                        \/ self_type self = TensorFlowNeuronPredictorType)
             then (tf_serving_address <-
                     host_colon_port tf_serving_host tf_serving_port ;;
                   ret (Some (TensorFlowClient tf_serving_address)))
             else ret client) ;;
  client <- (if decide (self_type self = ONNXPredictorType)
             then (models <- getattr_self self "models" ;;
                   ret (Some (ONNXClient models)))
             else ret client) ;;
  ret client.

(** A string as a module attribute. *)
Definition py_str (s : string) : PyObj :=
  py_data (negb (String.eqb s EmptyString)).

(** [imp.new_module(name)] : a module object with its five attributes. *)
Definition new_module (name : string) : Module :=
  list_to_map [
    ("__name__", AOther (py_str name));
    ("__doc__", AOther py_None);
    ("__package__", AOther py_None);
    ("__loader__", AOther py_None);
    ("__spec__", AOther py_None) ].

(** [setattr(impl, key, value)] on a module object: the key has to be a
    string, [__dict__] is read-only, [__class__] is not kept in the
    attribute dictionary, every other name is bound there. *)
Definition setattr_module (w : World) (impl : Module) (key : PKey)
    (value : ModAttr) : Result Module :=
  match key with
  | KOther type_name =>
      Raise (TypeError
               ("attribute name must be string, not '" +:+ type_name +:+ "'"))
  | KStr name =>
      if String.eqb name "__dict__" then Raise ReadonlyAttribute
      else if String.eqb name "__class__"
      then match w_set_class w value with
           | Some e => Raise e
           | None => Ok impl
           end
      else Ok (<[name := value]> impl)
  end.

(** The loop over an unpickled dictionary. *)
Fixpoint setattr_all (w : World) (impl : Module)
    (items : list (PKey * ModAttr)) : M Module :=
  match items with
  | [] => ret impl
  | (key, value) :: rest =>
      impl' <- lift (setattr_module w impl key value) ;;
      setattr_all w impl' rest
  end.

(** The error of [class_impl] for a second class of the target name. *)
Definition multiple_definitions (target : string) : Exn :=
  UserException [
    "multiple definitions for " +:+ target +:+
    " class found; please check your imports and class definitions and ensure that there is only one Predictor class definition" ].

Section Loading.

Variable g : Globals.
Variable w : World.

Definition _load_module (self : Predictor) (module_name impl_path : string)
    : M Module :=
  if endswith impl_path ".pickle"
  then
    try_except
      (let impl : Module := new_module module_name in
       pickle_file <- lift (w_open w impl_path) ;;
       pickled_dict <- lift (w_dill_load w pickle_file) ;;
       match pickled_dict with
       | PDict items => setattr_all w impl items
       | PNotDict e => raise e
       end)
      (fun e => raise (UserException ["unable to load pickle"; str e]))
  else
    try_except
      (lift (w_load_source w module_name impl_path))
      (fun e => raise (UserException [str e])).

(** The loop of [class_impl] over the enumerated classes, with the test
    that follows it. *)
Fixpoint scan_classes (target_class_name : option string)
    (classes : list (string * Class)) (predictor_class : option Class)
    : M (option Class) :=
  match classes with
  | [] => ret predictor_class
  | class_df :: rest =>
      target <- read_local "target_class_name" target_class_name ;;
      if String.eqb class_df.1 target
      then match predictor_class with
           | Some _ =>
               raise (multiple_definitions target)
           | None => scan_classes target_class_name rest (Some class_df.2)
           end
      else scan_classes target_class_name rest predictor_class
  end.

Definition resolve_class (target_class_name : option string)
    (classes : list (string * Class)) : M Class :=
  predictor_class <- scan_classes target_class_name classes None ;;
  match predictor_class with
  | None =>
      target <- read_local "target_class_name" target_class_name ;;
      raise (UserException [target +:+ " class is not defined"])
  | Some c => ret c
  end.

(** The two locals that the chain of tests on [self.type] assigns, when one
    of the tests succeeds. *)
Definition class_contract (self : Predictor) : option (string * ImplReq) :=
  if type_eq_str (self_type self) "tensorflow"
  then Some ("TensorFlowPredictor", TENSORFLOW_CLASS_VALIDATION)
  else if type_eq_str (self_type self) "onnx"
  then Some ("ONNXPredictor", ONNX_CLASS_VALIDATION)
  else if type_eq_str (self_type self) "python"
  then Some ("PythonPredictor", PYTHON_CLASS_VALIDATION)
  else None.

Definition class_impl (self : Predictor) (project_dir : string) : M Class :=
  let target_class_name := fst <$> class_contract self in
  let validations := snd <$> class_contract self in
  impl <- try_wrap
            (_load_module self "cortex_predictor"
               (path_join project_dir (self_path self)))
            ("error in " +:+ self_path self) ;;
  try_wrap
    (let classes := getmembers_isclass impl in
     predictor_class <- resolve_class target_class_name classes ;;
     validations' <- read_local "validations" validations ;;
     v <- getattr_self self "_api_spec" ;;
     api_spec <- as_api_spec v ;;
     _validate_impl g predictor_class validations' api_spec ;;;
     ret predictor_class)
    ("error in " +:+ self_path self).

(** The keyword arguments of the constructor call, by [self.type]. *)
Definition init_kwargs (self : Predictor) (client : option Client) : Kwargs :=
  if type_eq_str (self_type self) "onnx"
  then [("onnx_client", KwClient client); ("config", KwConfig (self_config self))]
  else if type_eq_str (self_type self) "tensorflow"
  then [("tensorflow_client", KwClient client);
        ("config", KwConfig (self_config self))]
  else [("config", KwConfig (self_config self))].

Definition initialize_impl (self : Predictor) (project_dir : string)
    (client : option Client) : M Instance :=
  class_impl' <- class_impl self project_dir ;;
  try_except
    (call_class class_impl' (init_kwargs self client))
    (fun e =>
       raise (UserRuntimeException [self_path self; "__init__"; str e])).

End Loading.

(** ** Concrete implementations and specifications *)

(** A constructor that accepts every call. *)
Definition accepts_all : Kwargs -> option Exn := fun _ => None.

(** [class PythonPredictor] with [__init__(self, config)] and
    [predict(self, payload)]. *)
Definition plain_class : Class :=
  {| cls_name := "PythonPredictor";
     cls_attrs := list_to_map [
       ("__init__", py_function ["self"; "config"]);
       ("predict", py_function ["self"; "payload"]) ];
     cls_init := accepts_all |}.

(** The specification with no model configured. *)
Definition plain_spec : ApiSpec :=
  {| spec_type := PythonPredictorType;
     spec_path := "p.py";
     spec_config := Some [];
     spec_model_path := None;
     spec_models_dir := None;
     spec_models_paths := [] |}.

(** The same specification with [models.dir] set. *)
Definition models_dir_spec : ApiSpec :=
  {| spec_type := PythonPredictorType;
     spec_path := "p.py";
     spec_config := Some [];
     spec_model_path := None;
     spec_models_dir := Some "models";
     spec_models_paths := [] |}.

Definition plain_module : Module :=
  list_to_map [("PythonPredictor", AClass plain_class)].

(** Assignment to [__class__] of a module, for values that are no subclass
    of the module type. *)
Definition refuses_class : ModAttr -> option Exn :=
  fun _ =>
    Some (TypeError
            "__class__ assignment only supported for mutable types or ModuleType subclasses").

(** A world in which every source file loads as [m]. *)
Definition source_world (m : Module) : World :=
  {| w_open := fun _ => Raise (OtherException "No such file or directory");
     w_dill_load := fun _ => Raise (OtherException "invalid load key");
     w_load_source := fun _ _ => Ok m;
     w_set_class := refuses_class |}.

(** A world with no file at all. *)
Definition empty_world : World :=
  {| w_open := fun _ => Raise (OtherException "No such file or directory");
     w_dill_load := fun _ => Raise (OtherException "invalid load key");
     w_load_source := fun _ _ =>
       Raise (OtherException "No such file or directory");
     w_set_class := refuses_class |}.


(** ** Specification-side definitions *)

(** The enumerated classes that go by the target name. *)
Definition matching (target : string) (classes : list (string * Class))
    : list (string * Class) :=
  List.filter (fun class_df => String.eqb class_df.1 target) classes.

(** A second class, with no method of its own. *)
Definition bare_class : Class :=
  {| cls_name := "Helper";
     cls_attrs := empty; cls_init := accepts_all |}.

(** An exception other than the one that wraps a failing constructor. *)
Definition not_runtime (e : Exn) : Prop :=
  match e with
  | UserRuntimeException _ => False
  | _ => True
  end.

(** A specification of the ONNX kind. *)
Definition onnx_spec : ApiSpec :=
  {| spec_type := ONNXPredictorType;
     spec_path := "predictor.py";
     spec_config := None;
     spec_model_path := Some "s3://bucket/model.onnx";
     spec_models_dir := None;
     spec_models_paths := [] |}.

(** The first character of a string. *)
Definition head_char (s : string) : option ascii :=
  match s with
  | EmptyString => None
  | String c _ => Some c
  end.

(** An exception that the argument checks of the validator can raise: an
    ["invalid signature ..."] error, or an exception that is not a
    [UserException]. *)
Definition signature_error (e : Exn) : Prop :=
  match e with
  | UserException [m] => head_char m = Some "i"%char
  | UserException _ => False
  | _ => True
  end.

(** The rules that one validation goes through, in order: the optional
    rules whose method is present, the required rules, the conditional
    rules whose predicate holds. *)
Definition selected_rules (impl : Class) (impl_req : ImplReq)
    (api_spec : ApiSpec) : list FuncSignature :=
  List.filter (fun fs => truthy (getattr impl (fs_name fs)))
    (default [] (req_optional impl_req))
  ++ default [] (req_required impl_req)
  ++ List.filter
       (fun fs => match fs_condition fs with
                  | Some condition => condition impl api_spec
                  | None => false
                  end)
       (default [] (req_conditional impl_req)).

(** Every conditional rule of the table has its predicate. *)
Definition conditions_present (impl_req : ImplReq) : Prop :=
  Forall (fun fs => fs_condition fs <> None)
    (default [] (req_conditional impl_req)).

(** The first required name that is not among the formal parameters. *)
Definition first_missing (required_args argspec_args : list string)
    : option string :=
  List.find (fun arg_name => negb (mem arg_name argspec_args)) required_args.

(** A class on which [predict] is bound to [None]. *)
Definition none_predict_class : Class :=
  {| cls_name := "TensorFlowPredictor";
     cls_attrs := list_to_map [
       ("__init__", py_function ["self"; "tensorflow_client"; "config"]);
       ("predict", py_None) ];
     cls_init := accepts_all |}.

(** A class whose constructor is declared as [__init__(config, self)]. *)
Definition swapped_class : Class :=
  {| cls_name := "TensorFlowPredictor";
     cls_attrs := list_to_map [
       ("__init__", py_function ["config"; "self"]);
       ("predict", py_function ["self"; "payload"]) ];
     cls_init := accepts_all |}.

(** A class whose constructor is declared as [__init__(self)]. *)
Definition no_config_class : Class :=
  {| cls_name := "TensorFlowPredictor";
     cls_attrs := list_to_map [
       ("__init__", py_function ["self"]);
       ("predict", py_function ["self"; "payload"]) ];
     cls_init := accepts_all |}.

(** A tensor-serving class whose [predict] takes a parameter [foo]. *)
Definition foo_class : Class :=
  {| cls_name := "TensorFlowPredictor";
     cls_attrs := list_to_map [
       ("__init__", py_function ["self"; "tensorflow_client"; "config"]);
       ("predict", py_function ["self"; "foo"]) ];
     cls_init := accepts_all |}.

(** The global namespace, had the module bound [api_spec] to [a]. *)
Definition globals_with (a : ApiSpec) : Globals := {| g_api_spec := Some a |}.

(** ** Model paths *)

(** The string has a [/]. *)
Fixpoint has_slash (s : string) : bool :=
  match s with
  | EmptyString => false
  | String c rest => if Ascii.eqb c "/" then true else has_slash rest
  end.

(** [os.path.basename(p)] on POSIX paths: what follows the last [/]. *)
Fixpoint basename (p : string) : string :=
  match p with
  | EmptyString => EmptyString
  | String c rest => if has_slash p then basename rest else p
  end.

Definition _compute_model_basepath (self : Predictor)
    (model_path model_name : string) : string :=
  let base_path := path_join (self_model_dir self) model_name in
  if type_eq_str (self_type self) "onnx"
  then path_join base_path (basename model_path)
  else base_path.

(** ** Acceptance of a method by a rule *)

(** The method is bound, callable, and its formal parameters are [args]. *)
Definition has_method (impl : Class) (name : string) (args : list string)
    : Prop :=
  truthy (getattr impl name) = true
  /\ is_callable (getattr impl name) = true
  /\ fullargspec_args (getattr impl name) = Some args.

(** The rule names no conditional argument. *)
Definition no_condition_args (func_signature : FuncSignature) : Prop :=
  fs_condition_args func_signature = None
  \/ fs_condition_args func_signature = Some [].

(** The names that the rule stores under [required_args]. *)
Definition required_names (func_signature : FuncSignature) (h : Heap)
    : list string :=
  read_list (match fs_required_args func_signature with
             | Some l => Stored l
             | None => Fresh []
             end) h.

(** The names that the rule lists under [optional_args]. *)
Definition optional_names (func_signature : FuncSignature) : list string :=
  default [] (fs_optional_args func_signature).

(** [name in required_args or name in optional_args] *)
Definition supported (required_args optional_args : list string)
    (name : string) : bool :=
  mem name required_args || mem name optional_args.

(** What a signature has to satisfy: every required name is a parameter,
    ["self"], when required, is the first parameter, every parameter is a
    required or an optional name, and no parameter occurs twice. *)
Definition well_formed_args (required_args optional_args args : list string)
    : Prop :=
  Forall (fun name => mem name args = true) required_args
  /\ (In "self" required_args -> head args = Some "self")
  /\ Forall (fun name => supported required_args optional_args name = true) args
  /\ NoDup args.

Definition accepts (impl : Class) (func_signature : FuncSignature) (h : Heap)
    : Prop :=
  exists args,
    has_method impl (fs_name func_signature) args
    /\ well_formed_args (required_names func_signature h)
         (optional_names func_signature) args.

(** A tensor-serving class that meets its contract. *)
Definition tensorflow_class : Class :=
  {| cls_name := "TensorFlowPredictor";
     cls_attrs := list_to_map [
       ("__init__", py_function ["self"; "tensorflow_client"; "config"]);
       ("predict", py_function ["self"; "payload"; "headers"]) ];
     cls_init := accepts_all |}.

(** A specification of the tensor-serving kind. *)
Definition tensorflow_spec : ApiSpec :=
  {| spec_type := TensorFlowPredictorType;
     spec_path := "predictor.py";
     spec_config := None;
     spec_model_path := Some "s3://bucket/model";
     spec_models_dir := None;
     spec_models_paths := [] |}.

(** The items of an unpickled dictionary with string keys. *)
Definition str_items (kvs : list (string * ModAttr)) : list (PKey * ModAttr) :=
  map (fun kv => (KStr kv.1, kv.2)) kvs.

(** A world whose only file is a pickle of the given object. *)
Definition pickle_world (p : Pickled) : World :=
  {| w_open := fun _ => Ok "bytes";
     w_dill_load := fun _ => Ok p;
     w_load_source := fun _ _ =>
       Raise (OtherException "invalid syntax");
     w_set_class := refuses_class |}.

(** What [class_impl] lets out: a user error that names the file first, or
    an exception that is no Cortex exception. *)
Definition names_the_file (path : string) (e : Exn) : Prop :=
  match e with
  | UserException msgs => head msgs = Some ("error in " +:+ path)
  | UserRuntimeException _ => False
  | _ => True
  end.

(** A class whose [predict] repeats a parameter. *)
Definition repeated_class : Class :=
  {| cls_name := "TensorFlowPredictor";
     cls_attrs := list_to_map [
       ("__init__", py_function ["self"; "tensorflow_client"; "config"]);
       ("predict", py_function ["self"; "payload"; "payload"]) ];
     cls_init := accepts_all |}.

(** The names that [setattr] on a module object, or the enumeration of the
    members of a module, treats specially. *)
Definition special_names : list string :=
  ["__dict__"; "__class__"; "__dir__"; "__getattr__"].

(** The items are bound under names that are not special. *)
Definition ordinary_names (kvs : list (string * ModAttr)) : Prop :=
  Forall (fun kv => ~ In kv.1 special_names) kvs.






(** * Properties *)

(** ** The monad *)

Lemma bind_ok {A B} (m : M A) (k : A -> M B) h a h' :
  m h = (Ok a, h') -> bind m k h = k a h'.
Proof. intros E. unfold bind. now rewrite E. Qed.

Lemma bind_raise {A B} (m : M A) (k : A -> M B) h e h' :
  m h = (Raise e, h') -> bind m k h = (Raise e, h').
Proof. intros E. unfold bind. now rewrite E. Qed.

Lemma for_each_app {A} (body : A -> M unit) (l1 l2 : list A) h :
  for_each body (l1 ++ l2) h = (for_each body l1 ;;; for_each body l2) h.
Proof.
  revert h. induction l1 as [|x l1 IH]; intros h; simpl.
  - reflexivity.
  - unfold bind. destruct (body x h) as [[u|e] h1]; [|reflexivity].
    rewrite IH. reflexivity.
Qed.

(** A loop stops at the first element whose body raises. *)
Lemma for_each_first_raise {A} (body : A -> M unit) (pre post : list A) x h h1 h2 e :
  for_each body pre h = (Ok tt, h1) ->
  body x h1 = (Raise e, h2) ->
  for_each body (pre ++ x :: post) h = (Raise e, h2).
Proof.
  intros Hpre Hx. rewrite for_each_app. rewrite (bind_ok _ _ _ _ _ Hpre).
  simpl. now rewrite (bind_raise _ _ _ _ _ Hx).
Qed.

(** ** The instance dictionary *)

Lemma getattr_self__api_spec self h :
  getattr_self self "_api_spec" h = (Raise (AttributeError "_api_spec"), h).
Proof. reflexivity. Qed.

Lemma getattr_self_models self h :
  getattr_self self "models" h = (Raise (AttributeError "models"), h).
Proof. reflexivity. Qed.

(** ** The module loader *)

Lemma setattr_all_cases w impl items h :
  (exists m, setattr_all w impl items h = (Ok m, h))
  \/ (exists e, setattr_all w impl items h = (Raise e, h)).
Proof.
  revert impl. induction items as [|[key value] rest IH]; intros impl; simpl.
  - left. now eexists.
  - unfold bind, lift. destruct (setattr_module w impl key value) as [m|e].
    + apply IH.
    + right. now eexists.
Qed.

(** The try block of the pickle branch. *)
Lemma pickle_body_cases w module_name impl_path h :
  let body :=
    (pickle_file <- lift (w_open w impl_path) ;;
     pickled_dict <- lift (w_dill_load w pickle_file) ;;
     match pickled_dict with
     | PDict items => setattr_all w (new_module module_name) items
     | PNotDict e => raise e
     end) in
  (exists m, body h = (Ok m, h)) \/ (exists e, body h = (Raise e, h)).
Proof.
  cbv zeta. unfold bind, lift.
  destruct (w_open w impl_path) as [f|e]; [|right; now exists e].
  destruct (w_dill_load w f) as [[items|e']|e]; [|right; now eexists..].
  apply setattr_all_cases.
Qed.

(** What the loader returns, by the suffix of the path. *)
Lemma _load_module_cases w self module_name impl_path h :
  (exists m, _load_module w self module_name impl_path h = (Ok m, h))
  \/ (exists e,
        is_Exception e = true
        /\ _load_module w self module_name impl_path h
           = (Raise (UserException
                       (if endswith impl_path ".pickle"
                        then ["unable to load pickle"; str e]
                        else [str e])), h))
  \/ (exists e,
        is_Exception e = false
        /\ _load_module w self module_name impl_path h = (Raise e, h)).
Proof.
  unfold _load_module. destruct (endswith impl_path ".pickle").
  - unfold try_except.
    destruct (pickle_body_cases w module_name impl_path h) as [[m E]|[e E]];
      cbv zeta in E; rewrite E.
    + left. now eexists.
    + right. destruct (is_Exception e) eqn:Ex; [left | right]; now exists e.
  - unfold try_except, lift.
    destruct (w_load_source w module_name impl_path) as [m|e].
    + left. now eexists.
    + right. destruct (is_Exception e) eqn:Ex; [left | right]; now exists e.
Qed.




(** ** Class resolution *)

Lemma scan_classes_matching target classes acc h :
  scan_classes (Some target) classes acc h
  = (match acc, matching target classes with
     | None, [] => Ok None
     | None, [class_df] => Ok (Some class_df.2)
     | None, _ :: _ :: _ => Raise (multiple_definitions target)
     | Some c, [] => Ok (Some c)
     | Some c, _ :: _ => Raise (multiple_definitions target)
     end, h).
Proof.
  revert acc. induction classes as [|[n c] rest IH]; intros acc; simpl.
  - now destruct acc.
  - unfold bind, read_local, ret. simpl.
    destruct (String.eqb n target) eqn:E; simpl.
    + destruct acc as [c0|]; [reflexivity|].
      rewrite IH. now destruct (matching target rest).
    + apply IH.
Qed.

Lemma resolve_class_matching target classes h :
  resolve_class (Some target) classes h
  = (match matching target classes with
     | [] => Raise (UserException [target +:+ " class is not defined"])
     | [class_df] => Ok class_df.2
     | _ :: _ :: _ => Raise (multiple_definitions target)
     end, h).
Proof.
  unfold resolve_class, bind. rewrite scan_classes_matching.
  now destruct (matching target classes) as [|? [|? ?]].
Qed.

Lemma matching_Permutation target classes classes' :
  Permutation classes classes' ->
  Permutation (matching target classes) (matching target classes').
Proof.
  induction 1; simpl.
  - constructor.
  - destruct (String.eqb x.1 target); [now constructor | assumption].
  - destruct (String.eqb x.1 target), (String.eqb y.1 target);
      try reflexivity; now constructor.
  - etransitivity; eassumption.
Qed.

Lemma string_app_assoc (a b c : string) : (a +:+ b) +:+ c = a +:+ (b +:+ c).
Proof.
  induction a as [|x a IH]; [reflexivity|].
  change (String x ((a +:+ b) +:+ c) = String x (a +:+ (b +:+ c))).
  now rewrite IH.
Qed.

Lemma contains_intro (pre sub post : string) :
  contains (pre +:+ sub +:+ post) sub.
Proof. now exists pre, post. Qed.

Lemma multiple_definitions_contains target :
  exists msg, multiple_definitions target = UserException [msg]
    /\ contains msg ("multiple definitions for " +:+ target +:+ " class found").
Proof.
  eexists. split; [reflexivity|].
  exists EmptyString.
  exists "; please check your imports and class definitions and ensure that there is only one Predictor class definition".
  rewrite !string_app_assoc. reflexivity.
Qed.

(** On any list of (name, class) pairs, the loop returns the one class
    listed under the target name; with no such pair it raises ["<name> class
    is not defined"], with two or more it raises the ["multiple definitions
    for <name> class found"] error; and the outcome is the same for every
    order of the list. *)
Lemma resolve_class_unique target classes classes' h :
  Permutation classes classes' ->
  resolve_class (Some target) classes h
  = (match matching target classes with
     | [] => Raise (UserException [target +:+ " class is not defined"])
     | [class_df] => Ok class_df.2
     | _ :: _ :: _ => Raise (multiple_definitions target)
     end, h)
  /\ (exists msg, multiple_definitions target = UserException [msg]
        /\ contains msg
             ("multiple definitions for " +:+ target +:+ " class found"))
  /\ resolve_class (Some target) classes' h
     = resolve_class (Some target) classes h.
Proof.
  intros HP. split; [apply resolve_class_matching|].
  split; [apply multiple_definitions_contains|].
  rewrite !resolve_class_matching.
  pose proof (matching_Permutation target _ _ HP) as HM.
  destruct (matching target classes) as [|a [|b l]].
  - now rewrite (Permutation_nil HM).
  - now rewrite (Permutation_length_1_inv HM).
  - pose proof (Permutation_length HM) as HL.
    destruct (matching target classes') as [|a' [|b' l']];
      simpl in HL; try discriminate. reflexivity.
Qed.

Lemma resolve_class_unique_witness :
  resolve_class (Some "PythonPredictor")
    [("Helper", bare_class); ("PythonPredictor", plain_class)] initial_heap
  = (Ok plain_class, initial_heap)
  /\ resolve_class (Some "PythonPredictor")
       [("PythonPredictor", plain_class); ("Helper", bare_class)] initial_heap
     = (Ok plain_class, initial_heap).
Proof.
  pose proof (resolve_class_unique "PythonPredictor"
    [("Helper", bare_class); ("PythonPredictor", plain_class)]
    [("PythonPredictor", plain_class); ("Helper", bare_class)]
    initial_heap (perm_swap _ _ [])) as (H1 & _ & H2).
  split; [exact H1 | rewrite H2; exact H1].
Defined.

(** ** Instantiation *)

Lemma resolve_class_raises target classes h e h' :
  resolve_class target classes h = (Raise e, h') ->
  not_runtime e /\ not_runtime (wrap e "x") /\ h' = h.
Proof.
  destruct target as [t|].
  - rewrite resolve_class_matching.
    destruct (matching t classes) as [|a [|b l]]; intros [= <- <-];
      now repeat split.
  - destruct classes as [|c rest]; intros [= <- <-]; now repeat split.
Qed.

Lemma resolve_class_heap target classes h r h' :
  resolve_class target classes h = (r, h') -> h' = h.
Proof.
  destruct target as [t|].
  - rewrite resolve_class_matching. now intros [= _ <-].
  - destruct classes as [|c rest]; now intros [= _ <-].
Qed.

(** [class_impl] never returns: the argument [self._api_spec] of the call
    to the validator names an attribute that no instance has. *)
Lemma class_impl_raises g w self project_dir h :
  exists e, class_impl g w self project_dir h = (Raise e, h) /\ not_runtime e.
Proof.
  unfold class_impl, try_wrap, try_except. unfold bind at 1.
  destruct (_load_module_cases w self "cortex_predictor"
              (path_join project_dir (self_path self)) h)
    as [[m E]|[(e & _ & E)|(e & Hex & E)]];
    rewrite E; simpl.
  2: { eexists. split; [reflexivity | exact I]. }
  2: { rewrite Hex. exists e. split; [reflexivity|].
       destruct e; try discriminate Hex; exact I. }
  unfold bind at 1.
  destruct (resolve_class (fst <$> class_contract self)
              (getmembers_isclass m) h) as [[c|e] h1] eqn:ER.
  - pose proof (resolve_class_heap _ _ _ _ _ ER) as ->.
    unfold bind at 1.
    destruct (class_contract self) as [[t v]|]; simpl.
    + unfold bind at 1. rewrite getattr_self__api_spec. simpl.
      eexists. split; [reflexivity | exact I].
    + eexists. split; [reflexivity | exact I].
  - destruct (resolve_class_raises _ _ _ _ _ ER) as (H1 & H2 & ->).
    destruct e; simpl; eexists; (split; [reflexivity | exact I || exact H1]).
Qed.

(** C1. In the scenario of the claim (Plain kind, no model configured, a
    module defining [PythonPredictor] with [__init__(self, config)] and
    [predict(self, payload)]), [initialize_impl] does not return an
    instance: it raises [AttributeError] for [_api_spec], the attribute
    that [class_impl] reads where [__init__] bound [api_spec]. *)
Theorem initialize_impl_plain_scenario :
  initialize_impl module_globals (source_world plain_module)
    (Predictor__init__ "local" "/mnt/model" plain_spec) "/mnt/project" None
    initial_heap
  = (Raise (AttributeError "_api_spec"), initial_heap).
Proof. vm_compute. reflexivity. Qed.

(** C2. Whatever the kind, the world and the client, [initialize_impl]
    raises the exception of [class_impl] and therefore never reaches the
    call that instantiates the class; the exception is not the
    [UserRuntimeException] that a failing constructor would produce. *)
Theorem initialize_impl_never_instantiates g w provider model_dir api_spec
    project_dir client h :
  exists e,
    initialize_impl g w (Predictor__init__ provider model_dir api_spec)
      project_dir client h = (Raise e, h)
    /\ not_runtime e.
Proof.
  destruct (class_impl_raises g w
              (Predictor__init__ provider model_dir api_spec) project_dir h)
    as (e & E & He).
  exists e. split; [|exact He].
  unfold initialize_impl. now rewrite (bind_raise _ _ _ _ _ E).
Qed.

(** The keyword arguments that the instantiation would pass, by kind. *)
Lemma init_kwargs_by_kind self client :
  init_kwargs self client
  = match self_type self with
    | PythonPredictorType => [("config", KwConfig (self_config self))]
    | TensorFlowPredictorType | TensorFlowNeuronPredictorType =>
        [("tensorflow_client", KwClient client);
         ("config", KwConfig (self_config self))]
    | ONNXPredictorType =>
        [("onnx_client", KwClient client);
         ("config", KwConfig (self_config self))]
    end.
Proof. unfold init_kwargs. now destruct (self_type self). Qed.

(** ** Client selection *)

Lemma initialize_client_plain provider model_dir api_spec host port h :
  spec_type api_spec = PythonPredictorType ->
  initialize_client (Predictor__init__ provider model_dir api_spec) host port h
  = (Ok (Some PythonClient), h).
Proof.
  intros E. unfold initialize_client, Predictor__init__,
    predictor_type_from_api_spec; simpl. now rewrite E.
Qed.

Lemma initialize_client_tensorflow provider model_dir api_spec host port h :
  spec_type api_spec = TensorFlowPredictorType
  \/ spec_type api_spec = TensorFlowNeuronPredictorType ->
  initialize_client (Predictor__init__ provider model_dir api_spec)
    (Some host) (Some port) h
  = (Ok (Some (TensorFlowClient (host +:+ ":" +:+ port))), h).
Proof.
  intros E. unfold initialize_client, Predictor__init__,
    predictor_type_from_api_spec; simpl. now destruct E as [-> | ->].
Qed.

(** C7. For the ONNX kind [initialize_client] constructs no client: the
    argument of [ONNXClient] reads [self.models], which [__init__] never
    binds, and the call raises [AttributeError]. *)
Theorem initialize_client_onnx provider model_dir api_spec host port h :
  spec_type api_spec = ONNXPredictorType ->
  initialize_client (Predictor__init__ provider model_dir api_spec) host port h
  = (Raise (AttributeError "models"), h).
Proof.
  intros E. unfold initialize_client, Predictor__init__,
    predictor_type_from_api_spec; simpl. now rewrite E.
Qed.

Lemma initialize_client_onnx_witness :
  initialize_client (Predictor__init__ "aws" "/mnt/model" onnx_spec)
    (Some "localhost") (Some "9000") initial_heap
  = (Raise (AttributeError "models"), initial_heap).
Proof.
  apply (initialize_client_onnx "aws" "/mnt/model" onnx_spec
           (Some "localhost") (Some "9000") initial_heap).
  reflexivity.
Defined.

(** ** The validator: which exceptions, and what happens to the store *)

Lemma check_required_arg_cases fn_str argspec_args arg_name h :
  check_required_arg fn_str argspec_args arg_name h = (Ok tt, h)
  \/ exists e, check_required_arg fn_str argspec_args arg_name h = (Raise e, h)
               /\ signature_error e.
Proof.
  unfold check_required_arg.
  destruct (mem arg_name argspec_args); simpl.
  2: { right. eexists. split; reflexivity. }
  destruct (String.eqb arg_name "self"); [|now left].
  destruct argspec_args as [|first rest].
  - right. eexists. split; [reflexivity | exact I].
  - destruct (String.eqb first "self"); simpl; [now left|].
    right. eexists. split; reflexivity.
Qed.

Lemma for_each_cases {A} (body : A -> M unit) (l : list A) h :
  (forall x h0, body x h0 = (Ok tt, h0)
                \/ exists e, body x h0 = (Raise e, h0) /\ signature_error e) ->
  for_each body l h = (Ok tt, h)
  \/ exists e, for_each body l h = (Raise e, h) /\ signature_error e.
Proof.
  intros Hb. induction l as [|x l IH]; simpl; [now left|].
  unfold bind. destruct (Hb x h) as [-> | (e & -> & He)]; [exact IH|].
  right. now exists e.
Qed.

Lemma check_formal_args_cases fn_str required_args optional_args argspec_args
    seen_args h :
  check_formal_args fn_str required_args optional_args argspec_args seen_args h
  = (Ok tt, h)
  \/ exists e,
       check_formal_args fn_str required_args optional_args argspec_args
         seen_args h = (Raise e, h)
       /\ signature_error e.
Proof.
  revert seen_args. induction argspec_args as [|a rest IH]; intros seen; simpl.
  - now left.
  - destruct (negb (mem a required_args) && negb (mem a optional_args)).
    { right. eexists. split; reflexivity. }
    destruct (mem a seen).
    { right. eexists. split; reflexivity. }
    apply IH.
Qed.

(** With [api_spec] bound, the conditional-argument loop returns. *)
Lemma add_condition_args_bound g a impl condition_args required_args h :
  g_api_spec g = Some a ->
  exists r h', add_condition_args g impl condition_args required_args h
               = (Ok r, h').
Proof.
  intros E. revert required_args h.
  induction condition_args as [|[n p] rest IH]; intros r h; simpl.
  - now eexists _, _.
  - unfold bind at 1, global_api_spec. rewrite E. simpl.
    destruct (p impl a); [|apply IH].
    unfold bind at 1. destruct r; simpl; apply IH.
Qed.

(** With [api_spec] unbound, its first iteration raises [NameError]. *)
Lemma add_condition_args_unbound g impl arg_name predicate rest required_args h :
  g_api_spec g = None ->
  add_condition_args g impl ((arg_name, predicate) :: rest) required_args h
  = (Raise (NameError "api_spec"), h).
Proof.
  intros E. simpl. unfold bind, global_api_spec. now rewrite E.
Qed.

(** The conditional-argument loop either returns or raises [NameError]. *)
Lemma add_condition_args_cases g impl condition_args required_args h :
  (exists r h', add_condition_args g impl condition_args required_args h
                = (Ok r, h'))
  \/ add_condition_args g impl condition_args required_args h
     = (Raise (NameError "api_spec"), h).
Proof.
  destruct (g_api_spec g) as [a|] eqn:E.
  - left. now apply add_condition_args_bound with a.
  - destruct condition_args as [|[n p] rest].
    + left. now eexists _, _.
    + right. now apply add_condition_args_unbound.
Qed.

Lemma effective_required_args_cases g impl func_signature h :
  (exists r h', effective_required_args g impl func_signature h = (Ok r, h'))
  \/ effective_required_args g impl func_signature h
     = (Raise (NameError "api_spec"), h).
Proof.
  unfold effective_required_args.
  destruct (fs_condition_args func_signature) as [[|c rest]|];
    try (left; now eexists _, _).
  apply add_condition_args_cases.
Qed.

(** In the file as written, no rule with conditional arguments gets past
    the loop, and no rule changes the store. *)
Lemma effective_required_args_as_written impl func_signature h :
  effective_required_args module_globals impl func_signature h
  = (match fs_condition_args func_signature with
     | Some (_ :: _) => Raise (NameError "api_spec")
     | _ =>
         Ok (match fs_required_args func_signature with
             | Some l => Stored l
             | None => Fresh []
             end)
     end, h).
Proof.
  unfold effective_required_args.
  destruct (fs_condition_args func_signature) as [[|[n p] rest]|];
    [reflexivity | | reflexivity].
  now apply add_condition_args_unbound.
Qed.

(** After the two tests on the attribute, every exception is a
    [signature_error]. *)
Lemma _validate_required_fn_args_raises g impl func_signature h e h' :
  truthy (getattr impl (fs_name func_signature)) = true ->
  is_callable (getattr impl (fs_name func_signature)) = true ->
  _validate_required_fn_args g impl func_signature h = (Raise e, h') ->
  signature_error e.
Proof.
  intros Ht Hc. unfold _validate_required_fn_args. rewrite Ht, Hc. simpl.
  unfold bind at 1.
  destruct (effective_required_args_cases g impl func_signature h)
    as [(r & h1 & ->) | ->]; [|now intros [= <- _]].
  destruct (fullargspec_args (getattr impl (fs_name func_signature)))
    as [args|]; [|now intros [= <- _]].
  unfold bind.
  destruct (for_each_cases
              (check_required_arg (render_fn (fs_name func_signature) args) args)
              (read_list r h1) h1
              (check_required_arg_cases _ _)) as [-> | (e1 & -> & He1)].
  - destruct (check_formal_args_cases
                (render_fn (fs_name func_signature) args) (read_list r h1)
                (default [] (fs_optional_args func_signature)) args [] h1)
      as [-> | (e2 & -> & He2)]; [discriminate | now intros [= <- _]].
  - now intros [= <- _].
Qed.

Lemma _validate_required_fn_args_heap impl func_signature h r h' :
  _validate_required_fn_args module_globals impl func_signature h = (r, h') ->
  h' = h.
Proof.
  unfold _validate_required_fn_args.
  destruct (truthy _); simpl; [|now intros [= _ <-]].
  destruct (is_callable _); simpl; [|now intros [= _ <-]].
  unfold bind at 1. rewrite effective_required_args_as_written.
  destruct (fs_condition_args func_signature) as [[|c rest]|];
    try (now intros [= _ <-]);
    (destruct (fullargspec_args _) as [args|]; [|now intros [= _ <-]];
     unfold bind;
     match goal with
     | |- context [for_each ?b ?l ?h0] =>
         destruct (for_each_cases b l h0 (check_required_arg_cases _ _))
           as [-> | (e1 & -> & _)]; [|now intros [= _ <-]]
     end;
     match goal with
     | |- context [check_formal_args ?f ?rq ?o ?a ?s ?h0] =>
         destruct (check_formal_args_cases f rq o a s h0)
           as [-> | (e2 & -> & _)]; now intros [= _ <-]
     end).
Qed.

Lemma for_each_heap {A} (body : A -> M unit) (l : list A) h r h' :
  (forall x h0 r0 h1, body x h0 = (r0, h1) -> h1 = h0) ->
  for_each body l h = (r, h') -> h' = h.
Proof.
  intros Hb. revert h. induction l as [|x l IH]; intros h; simpl.
  - now intros [= _ <-].
  - unfold bind. destruct (body x h) as [[u|e] h1] eqn:E.
    + intros E'. apply IH in E'. apply Hb in E. congruence.
    + intros [= _ <-]. now apply Hb in E.
Qed.

(** In the file as written, no run of the validator changes the store. *)
Lemma _validate_impl_heap impl impl_req api_spec h r h' :
  _validate_impl module_globals impl impl_req api_spec h = (r, h') -> h' = h.
Proof.
  unfold _validate_impl, bind.
  destruct (for_each (_validate_optional_fn_args module_globals impl) _ h)
    as [[u|e] h1] eqn:E1.
  2: { intros [= _ <-]. revert E1. apply for_each_heap.
       intros x h0 r0 h2. unfold _validate_optional_fn_args.
       destruct (truthy _); [apply _validate_required_fn_args_heap|].
       now intros [= _ <-]. }
  assert (h1 = h) as ->.
  { revert E1. apply for_each_heap.
    intros x h0 r0 h2. unfold _validate_optional_fn_args.
    destruct (truthy _); [apply _validate_required_fn_args_heap|].
    now intros [= _ <-]. }
  destruct (for_each (_validate_required_fn_args module_globals impl) _ h)
    as [[u'|e] h1] eqn:E2.
  2: { intros [= _ <-]. revert E2. apply for_each_heap.
       intros x h0 r0 h2. apply _validate_required_fn_args_heap. }
  assert (h1 = h) as ->.
  { revert E2. apply for_each_heap.
    intros x h0 r0 h2. apply _validate_required_fn_args_heap. }
  apply for_each_heap. intros x h0 r0 h2. unfold validate_conditional.
  destruct (fs_condition x) as [c|]; [|now intros [= _ <-]].
  destruct (c impl api_spec); [apply _validate_required_fn_args_heap|].
  now intros [= _ <-].
Qed.

(** ** Truthiness *)

(** C10. Whether a method exists is decided by the truth value of the
    attribute: a required rule whose attribute is falsy (absent, or bound to
    [None]) raises ["required function ... is not defined"]; the ["is
    defined, but is not a function"] error is raised exactly when the
    attribute is truthy and not callable; an optional rule whose attribute
    is falsy is skipped. *)
Theorem truthiness_decides_existence g impl func_signature h :
  let fn := getattr impl (fs_name func_signature) in
  (truthy fn = false ->
   _validate_required_fn_args g impl func_signature h
   = (Raise (UserException [msg_not_defined (fs_name func_signature)]), h))
  /\ (fst (_validate_required_fn_args g impl func_signature h)
      = Raise (UserException [msg_not_function (fs_name func_signature)])
      <-> truthy fn = true /\ is_callable fn = false)
  /\ (truthy fn = false ->
      _validate_optional_fn_args g impl func_signature h = (Ok tt, h)).
Proof.
  cbv zeta. split; [|split].
  - intros Ht. unfold _validate_required_fn_args. now rewrite Ht.
  - split.
    + destruct (truthy (getattr impl (fs_name func_signature))) eqn:Ht.
      * destruct (is_callable (getattr impl (fs_name func_signature))) eqn:Hc;
          [|now split].
        destruct (_validate_required_fn_args g impl func_signature h)
          as [[u|e] h'] eqn:E; simpl; [discriminate|].
        intros [= ->].
        now apply (_validate_required_fn_args_raises _ _ _ _ _ _ Ht Hc) in E.
      * unfold _validate_required_fn_args. rewrite Ht. simpl.
        intros H.
        apply (f_equal (fun r => match r with
                                 | Raise (UserException [m]) => head_char m
                                 | _ => None
                                 end)) in H.
        discriminate H.
    + intros [Ht Hc]. unfold _validate_required_fn_args. now rewrite Ht, Hc.
  - intros Ht. unfold _validate_optional_fn_args. now rewrite Ht.
Qed.

Lemma truthiness_decides_existence_witness :
  _validate_required_fn_args module_globals none_predict_class
    (predict_signature 5%positive) initial_heap
  = (Raise (UserException [msg_not_defined "predict"]), initial_heap)
  /\ _validate_optional_fn_args module_globals none_predict_class
       (predict_signature 5%positive) initial_heap
     = (Ok tt, initial_heap).
Proof.
  pose proof (truthiness_decides_existence module_globals none_predict_class
                (predict_signature 5%positive) initial_heap) as (H1 & _ & H3).
  split; [apply H1 | apply H3]; reflexivity.
Defined.

(** ** The Plain table *)

(** Validation against the Plain table stops at the [__init__] rule: the
    attribute is falsy, or not callable, or the conditional-argument loop
    reads the unbound name [api_spec]. *)
Lemma validate_plain_stops_at_init impl api_spec h :
  let fn := getattr impl "__init__" in
  _validate_impl module_globals impl PYTHON_CLASS_VALIDATION api_spec h
  = (Raise (if negb (truthy fn)
            then UserException [msg_not_defined "__init__"]
            else if negb (is_callable fn)
            then UserException [msg_not_function "__init__"]
            else NameError "api_spec"), h).
Proof.
  cbv zeta. unfold _validate_impl. simpl. unfold bind at 1. simpl.
  unfold bind at 1 2. unfold _validate_required_fn_args at 1. simpl.
  destruct (truthy (getattr impl "__init__")); [|reflexivity].
  destruct (is_callable (getattr impl "__init__")); reflexivity.
Qed.

(** C4. Validating the class of the scenario against the Plain table, with
    [models.dir] set and no [load_model] method, raises [NameError] for
    [api_spec] and not the required-function error for [load_model]; in
    fact no class and no specification make validation against the Plain
    table succeed or reach the [load_model] rule.  Validating twice gives
    the same result, the store being unchanged. *)
Theorem validate_plain_never_reaches_load_model :
  _validate_impl module_globals plain_class PYTHON_CLASS_VALIDATION
    models_dir_spec initial_heap
  = (Raise (NameError "api_spec"), initial_heap)
  /\ (forall impl api_spec h,
        let R := _validate_impl module_globals impl PYTHON_CLASS_VALIDATION
                   api_spec h in
        fst R <> Ok tt
        /\ fst R <> Raise (UserException [msg_not_defined "load_model"])
        /\ _validate_impl module_globals impl PYTHON_CLASS_VALIDATION
             api_spec (snd R) = R).
Proof.
  split; [reflexivity|].
  intros impl api_spec h. cbv zeta.
  rewrite !validate_plain_stops_at_init. simpl.
  split; [discriminate|]. split; [|reflexivity].
  destruct (truthy (getattr impl "__init__")); simpl;
    [destruct (is_callable (getattr impl "__init__")); simpl|];
    intros H; discriminate H.
Qed.

(** ** Conditional arguments *)

(** C9. The effective required arguments of a rule with conditional
    arguments are not computed as a union: in the file as written the
    validation of the Plain [__init__] rule raises [NameError] at the first
    conditional argument, before any name is added; and the statement that
    adds a name appends to the list that the rule stores, as is seen when
    the name [api_spec] is bound. *)
Theorem conditional_args_append_in_place :
  _validate_required_fn_args module_globals plain_class python_init_signature
    initial_heap
  = (Raise (NameError "api_spec"), initial_heap)
  /\ initial_heap !! 1%positive = Some ["self"; "config"]
  /\ snd (effective_required_args (globals_with models_dir_spec) plain_class
            python_init_signature initial_heap) !! 1%positive
     = Some ["self"; "config"; "python_client"].
Proof. repeat split; vm_compute; reflexivity. Qed.

(** With [api_spec] bound, a first validation leaves the appended name in
    the table, and a later validation under a specification with no model
    then rejects the class that the table accepted before. *)
Lemma appended_name_outlives_the_call :
  let g := globals_with plain_spec in
  fst (_validate_impl g plain_class PYTHON_CLASS_VALIDATION plain_spec
         initial_heap) = Ok tt
  /\ fst (_validate_impl g plain_class PYTHON_CLASS_VALIDATION plain_spec
            (snd (effective_required_args (globals_with models_dir_spec)
                    plain_class python_init_signature initial_heap)))
     = Raise (UserException
                [msg_missing "__init__(self, config)" "python_client"]).
Proof. split; vm_compute; reflexivity. Qed.

(** ** Substrings *)

Lemma string_app_empty (s : string) : s +:+ EmptyString = s.
Proof.
  induction s as [|c s IH]; [reflexivity|].
  change (String c (s +:+ EmptyString) = String c s). now rewrite IH.
Qed.

Lemma substring_prefix (sub post : string) :
  substring 0 (String.length sub) (sub +:+ post) = sub.
Proof.
  induction sub as [|c sub IH].
  - now destruct post.
  - change (String c (substring 0 (String.length sub) (sub +:+ post))
            = String c sub).
    now rewrite IH.
Qed.

Lemma substring_middle (pre sub post : string) :
  substring (String.length pre) (String.length sub) (pre +:+ sub +:+ post)
  = sub.
Proof.
  induction pre as [|c pre IH]; [exact (substring_prefix sub post)|].
  exact IH.
Qed.

(** A string that [index] does not find does not occur. *)
Lemma contains_index (s sub : string) :
  contains s sub -> sub <> EmptyString -> index 0 sub s <> None.
Proof.
  intros (pre & post & ->) Hne Hidx.
  apply (index_correct3 0 (String.length pre)) in Hidx; [|assumption|lia].
  apply Hidx, substring_middle.
Qed.

Lemma msg_missing_contains fn_str arg_name :
  contains (msg_missing fn_str arg_name)
    "is a required argument, but was not provided"
  /\ contains (msg_missing fn_str arg_name) fn_str
  /\ contains (msg_missing fn_str arg_name) arg_name.
Proof.
  unfold msg_missing, invalid_signature. repeat split.
  - exists ("invalid signature for function " +:+ dq +:+ fn_str +:+ dq
              +:+ ": " +:+ dq +:+ arg_name +:+ dq +:+ " "), EmptyString.
    rewrite !string_app_assoc. reflexivity.
  - exists ("invalid signature for function " +:+ dq).
    eexists. rewrite !string_app_assoc. reflexivity.
  - exists ("invalid signature for function " +:+ dq +:+ fn_str +:+ dq
              +:+ ": " +:+ dq).
    eexists. rewrite !string_app_assoc. reflexivity.
Qed.

(** ** Required arguments *)

Lemma check_required_arg_present fn_str argspec_args arg_name h :
  mem arg_name argspec_args = true ->
  (arg_name = "self" -> head argspec_args = Some "self") ->
  check_required_arg fn_str argspec_args arg_name h = (Ok tt, h).
Proof.
  intros Hm Hs. unfold check_required_arg. rewrite Hm. simpl.
  destruct (String.eqb_spec arg_name "self") as [E|_]; [|reflexivity].
  specialize (Hs E). destruct argspec_args as [|first rest]; [discriminate|].
  injection Hs as ->. reflexivity.
Qed.

Lemma for_each_check_present fn_str argspec_args names h :
  Forall (fun x => mem x argspec_args = true) names ->
  (In "self" names -> head argspec_args = Some "self") ->
  for_each (check_required_arg fn_str argspec_args) names h = (Ok tt, h).
Proof.
  induction 1 as [|x l Hx Hl IH]; intros Hs; simpl; [reflexivity|].
  unfold bind. rewrite check_required_arg_present.
  - apply IH. intros Hin. apply Hs. now right.
  - exact Hx.
  - intros ->. apply Hs. now left.
Qed.

Lemma first_missing_split argspec_args pre n post :
  Forall (fun x => mem x argspec_args = true) pre ->
  mem n argspec_args = false ->
  first_missing (pre ++ n :: post) argspec_args = Some n.
Proof.
  unfold first_missing. induction 1 as [|x l Hx Hl IH]; intros Hn; simpl.
  - now rewrite Hn.
  - rewrite Hx. simpl. now apply IH.
Qed.

(** C5, as the code has it.  Once the required arguments of a rule stand
    (the stored names and the conditional names), the first of them that is
    not a formal parameter of the method raises the ["is a required
    argument, but was not provided"] error, which names it and shows the
    rendered signature, provided that ["self"], where it comes before that
    name, is the first formal parameter. *)
Theorem first_missing_required_arg g impl func_signature h required_ref h1
    argspec_args pre n post :
  let fn := getattr impl (fs_name func_signature) in
  let fn_str := render_fn (fs_name func_signature) argspec_args in
  truthy fn = true ->
  is_callable fn = true ->
  fullargspec_args fn = Some argspec_args ->
  effective_required_args g impl func_signature h = (Ok required_ref, h1) ->
  read_list required_ref h1 = pre ++ n :: post ->
  Forall (fun x => mem x argspec_args = true) pre ->
  mem n argspec_args = false ->
  (In "self" pre -> head argspec_args = Some "self") ->
  first_missing (read_list required_ref h1) argspec_args = Some n
  /\ _validate_required_fn_args g impl func_signature h
     = (Raise (UserException [msg_missing fn_str n]), h1)
  /\ contains (msg_missing fn_str n)
       "is a required argument, but was not provided"
  /\ contains (msg_missing fn_str n) fn_str
  /\ contains (msg_missing fn_str n) n.
Proof.
  cbv zeta. intros Ht Hc Ha He Hr Hpre Hn Hself.
  split; [rewrite Hr; now apply first_missing_split|].
  split; [|apply msg_missing_contains].
  unfold _validate_required_fn_args. rewrite Ht, Hc, Ha. simpl.
  rewrite (bind_ok _ _ _ _ _ He). rewrite Hr.
  apply bind_raise.
  apply for_each_first_raise with (h1 := h1).
  - now apply for_each_check_present.
  - unfold check_required_arg. now rewrite Hn.
Qed.

Lemma first_missing_required_arg_witness :
  _validate_required_fn_args module_globals no_config_class
    tensorflow_init_signature initial_heap
  = (Raise (UserException
              [msg_missing "__init__(self)" "tensorflow_client"]),
     initial_heap).
Proof.
  apply (first_missing_required_arg module_globals no_config_class
           tensorflow_init_signature initial_heap (Stored 4%positive)
           initial_heap ["self"] ["self"] "tensorflow_client" ["config"]);
    try reflexivity.
  - repeat constructor.
Defined.

(** C5, as stated, fails: with [__init__(config, self)] validated against
    the tensor-serving table the first missing name is [tensorflow_client],
    and the error raised is the one about the place of ["self"], whose
    message does not say that a required argument was not provided. *)
Lemma misplaced_self_hides_missing_name :
  first_missing ["self"; "tensorflow_client"; "config"] ["config"; "self"]
  = Some "tensorflow_client"
  /\ _validate_required_fn_args module_globals swapped_class
       tensorflow_init_signature initial_heap
     = (Raise (UserException [msg_self_first "__init__(config, self)"]),
        initial_heap)
  /\ ~ contains (msg_self_first "__init__(config, self)")
         "is a required argument, but was not provided".
Proof.
  split; [reflexivity|]. split; [vm_compute; reflexivity|].
  intros H. apply contains_index in H; [|discriminate].
  apply H. vm_compute. reflexivity.
Qed.

(** ** Order of validation *)

Lemma bind_ext {A B} (m : M A) (k1 k2 : A -> M B) h :
  (forall a h', k1 a h' = k2 a h') -> bind m k1 h = bind m k2 h.
Proof.
  intros E. unfold bind. destruct (m h) as [[a|e] h']; [apply E | reflexivity].
Qed.

Lemma for_each_optional g impl rules h :
  for_each (_validate_optional_fn_args g impl) rules h
  = for_each (_validate_required_fn_args g impl)
      (List.filter (fun fs => truthy (getattr impl (fs_name fs))) rules) h.
Proof.
  revert h. induction rules as [|fs rules IH]; intros h; simpl; [reflexivity|].
  unfold _validate_optional_fn_args at 1.
  destruct (truthy (getattr impl (fs_name fs))); simpl.
  - apply bind_ext. intros _ h'. apply IH.
  - apply IH.
Qed.

Lemma for_each_conditional g impl api_spec rules h :
  Forall (fun fs => fs_condition fs <> None) rules ->
  for_each (validate_conditional g impl api_spec) rules h
  = for_each (_validate_required_fn_args g impl)
      (List.filter
         (fun fs => match fs_condition fs with
                    | Some condition => condition impl api_spec
                    | None => false
                    end) rules) h.
Proof.
  intros HF. revert h. induction HF as [|fs rules Hfs HF IH]; intros h; simpl;
    [reflexivity|].
  unfold validate_conditional at 1.
  destruct (fs_condition fs) as [c|]; [|contradiction].
  destruct (c impl api_spec); simpl.
  - apply bind_ext. intros _ h'. apply IH.
  - apply IH.
Qed.

Lemma _validate_impl_selected g impl impl_req api_spec h :
  conditions_present impl_req ->
  _validate_impl g impl impl_req api_spec h
  = for_each (_validate_required_fn_args g impl)
      (selected_rules impl impl_req api_spec) h.
Proof.
  intros HC. unfold _validate_impl, selected_rules.
  rewrite for_each_app. unfold bind at 1 3.
  rewrite for_each_optional.
  destruct (for_each _ (List.filter _ (default [] (req_optional impl_req))) h)
    as [[u|e] h1]; [|reflexivity].
  rewrite for_each_app. apply bind_ext. intros _ h'.
  now apply for_each_conditional.
Qed.

(** C8. Validation goes through the optional rules whose method is
    present, then the required rules, then the conditional rules whose
    predicate holds, in this order, and it ends with the exception of the
    first rule that raises one: the rules after it play no part. *)
Theorem _validate_impl_in_order_fail_fast g impl impl_req api_spec h
    pre func_signature post h1 h2 e :
  conditions_present impl_req ->
  selected_rules impl impl_req api_spec = pre ++ func_signature :: post ->
  for_each (_validate_required_fn_args g impl) pre h = (Ok tt, h1) ->
  _validate_required_fn_args g impl func_signature h1 = (Raise e, h2) ->
  _validate_impl g impl impl_req api_spec h
  = for_each (_validate_required_fn_args g impl)
      (selected_rules impl impl_req api_spec) h
  /\ _validate_impl g impl impl_req api_spec h = (Raise e, h2).
Proof.
  intros HC Hsel Hpre Hfs.
  rewrite (_validate_impl_selected _ _ _ _ _ HC). split; [reflexivity|].
  rewrite Hsel. now apply for_each_first_raise with (h1 := h1).
Qed.

Lemma _validate_impl_in_order_fail_fast_witness :
  _validate_impl module_globals foo_class TENSORFLOW_CLASS_VALIDATION
    onnx_spec initial_heap
  = (Raise (UserException [msg_unsupported "predict(self, foo)" "foo"]),
     initial_heap).
Proof.
  apply (_validate_impl_in_order_fail_fast module_globals foo_class
           TENSORFLOW_CLASS_VALIDATION onnx_spec initial_heap
           [tensorflow_init_signature] (predict_signature 5%positive) []
           initial_heap initial_heap).
  - constructor.
  - reflexivity.
  - vm_compute. reflexivity.
  - vm_compute. reflexivity.
Defined.

(** When no selected rule raises, validation returns. *)
Lemma _validate_impl_all_pass g impl impl_req api_spec h h' :
  conditions_present impl_req ->
  for_each (_validate_required_fn_args g impl)
    (selected_rules impl impl_req api_spec) h = (Ok tt, h') ->
  _validate_impl g impl impl_req api_spec h = (Ok tt, h').
Proof. intros HC H. now rewrite _validate_impl_selected. Qed.

(** ** Worked examples *)

Example tensorflow_class_passes :
  _validate_impl module_globals none_predict_class
    {| req_optional := Some [predict_signature 5%positive];
       req_required := Some [tensorflow_init_signature];
       req_conditional := None |}
    onnx_spec initial_heap
  = (Ok tt, initial_heap).
Proof. vm_compute. reflexivity. Qed.

Example duplicated_parameter :
  fst (_validate_required_fn_args module_globals
         {| cls_name := "TensorFlowPredictor";
            cls_attrs :=
              list_to_map [("predict", py_function ["self"; "payload"; "payload"])];
            cls_init := accepts_all |}
         (predict_signature 5%positive) initial_heap)
  = Raise (UserException
             [msg_duplicated "predict(self, payload, payload)" "payload"]).
Proof. vm_compute. reflexivity. Qed.

Example plain_init_reads_unbound_name :
  _validate_required_fn_args module_globals no_config_class
    python_init_signature initial_heap
  = (Raise (NameError "api_spec"), initial_heap).
Proof. vm_compute. reflexivity. Qed.

Example class_impl_missing_class :
  fst (class_impl module_globals (source_world empty)
         (Predictor__init__ "local" "/mnt/model" plain_spec) "/mnt/project"
         initial_heap)
  = Raise (UserException
             ["error in p.py"; "PythonPredictor class is not defined"]).
Proof. vm_compute. reflexivity. Qed.

(** ** Enumeration of a module *)

Lemma omap_class_names (l : list (string * ModAttr)) name :
  name ∈ (omap (fun nv => match nv.2 with
                            | AClass c => Some (nv.1, c)
                            | AOther _ => None
                            end) l).*1 ->
  name ∈ l.*1.
Proof.
  induction l as [|[k [c|v]] l IH]; simpl; [easy| |].
  - rewrite !elem_of_cons. intros [->|H]; [now left | right; now apply IH].
  - intros H. rewrite elem_of_cons. right. now apply IH.
Qed.

(** The classes of a module are enumerated under pairwise distinct names,
    so that at most one of them goes by the target name. *)
Lemma getmembers_isclass_NoDup (impl : Module) :
  NoDup (getmembers_isclass impl).*1.
Proof.
  unfold getmembers_isclass.
  pose proof (NoDup_fst_map_to_list impl) as H.
  induction (map_to_list impl) as [|[k [c|v]] l IH]; simpl.
  - constructor.
  - inversion H as [|? ? Hk Hl]; subst. constructor; [|now apply IH].
    intros Hin. apply Hk. now apply omap_class_names in Hin.
  - inversion H as [|? ? Hk Hl]; subst. now apply IH.
Qed.

(** ** Paths *)

Example endswith_pickle :
  endswith "/mnt/project/predictor.pickle" ".pickle" = true
  /\ endswith "/mnt/project/predictor.py" ".pickle" = false
  /\ endswith "le" ".pickle" = false.
Proof. repeat split. Qed.

Example path_join_relative :
  path_join "/mnt/project" "p.py" = "/mnt/project/p.py"
  /\ path_join "/mnt/project/" "p.py" = "/mnt/project/p.py"
  /\ path_join "/mnt/project" "/abs/p.py" = "/abs/p.py".
Proof. repeat split. Qed.

(** * Further properties *)

(** ** Acceptance of a signature *)

Lemma mem_In (x : string) (l : list string) : mem x l = true <-> In x l.
Proof.
  unfold mem. rewrite existsb_exists. split.
  - intros (y & Hy & E). apply String.eqb_eq in E. now subst.
  - intros H. exists x. split; [exact H | apply String.eqb_refl].
Qed.

Lemma mem_not_In (x : string) (l : list string) : mem x l = false <-> ~ In x l.
Proof.
  rewrite <- mem_In. destruct (mem x l); split; intros H; easy.
Qed.

Lemma effective_required_args_no_condition g impl func_signature h :
  no_condition_args func_signature ->
  effective_required_args g impl func_signature h
  = (Ok (match fs_required_args func_signature with
         | Some l => Stored l
         | None => Fresh []
         end), h).
Proof.
  unfold effective_required_args. now intros [-> | ->].
Qed.

Lemma check_required_arg_ok fn_str argspec_args arg_name h h' :
  check_required_arg fn_str argspec_args arg_name h = (Ok tt, h') ->
  mem arg_name argspec_args = true
  /\ (arg_name = "self" -> head argspec_args = Some "self").
Proof.
  unfold check_required_arg.
  destruct (mem arg_name argspec_args); simpl; [|discriminate].
  destruct (String.eqb_spec arg_name "self") as [E|NE].
  - destruct argspec_args as [|first rest]; [discriminate|].
    destruct (String.eqb_spec first "self") as [->|_]; simpl;
      [now split | discriminate].
  - intros _. split; [reflexivity | now intros E].
Qed.

Lemma for_each_check_ok fn_str argspec_args names h :
  for_each (check_required_arg fn_str argspec_args) names h = (Ok tt, h)
  <-> Forall (fun x => mem x argspec_args = true) names
      /\ (In "self" names -> head argspec_args = Some "self").
Proof.
  split; [|intros [H1 H2]; now apply for_each_check_present].
  induction names as [|x l IH]; simpl.
  - intros _. split; [constructor | easy].
  - unfold bind.
    destruct (check_required_arg_cases fn_str argspec_args x h)
      as [E | (e & E & _)]; rewrite E; [|discriminate].
    intros H. apply IH in H as [H1 H2].
    apply check_required_arg_ok in E as [E1 E2].
    split; [now constructor|].
    intros [E'|Hin]; [apply E2; now symmetry | now apply H2].
Qed.

Lemma check_formal_args_ok fn_str required_args optional_args args seen h :
  check_formal_args fn_str required_args optional_args args seen h = (Ok tt, h)
  <-> Forall (fun a => supported required_args optional_args a = true) args
      /\ NoDup args
      /\ (forall a, In a args -> ~ In a seen).
Proof.
  revert seen. induction args as [|a rest IH]; intros seen; simpl.
  - split; [intros _|reflexivity]. repeat split; [constructor..|easy].
  - unfold supported at 1.
    replace (negb (mem a required_args) && negb (mem a optional_args))
      with (negb (mem a required_args || mem a optional_args))
      by apply negb_orb.
    destruct (mem a required_args || mem a optional_args) eqn:Hs; simpl.
    2: { split; [discriminate|]. intros (HF & _). inversion HF; subst.
         unfold supported in *. congruence. }
    destruct (mem a seen) eqn:Hseen.
    { split; [discriminate|]. intros (_ & _ & H).
      apply mem_In in Hseen. exfalso. apply (H a); [now left | exact Hseen]. }
    apply mem_not_In in Hseen. rewrite IH. split.
    + intros (HF & HN & HD). split; [now constructor|]. split.
      * constructor; [|exact HN]. intros Hin. apply list_elem_of_In in Hin.
        apply (HD a Hin). apply in_or_app. right. now left.
      * intros b [<-|Hb]; [exact Hseen|]. intros Hin. apply (HD b Hb).
        apply in_or_app. now left.
    + intros (HF & HN & HD). inversion HF; subst.
      inversion HN as [|? ? Hnot HN']; subst.
      split; [assumption|]. split; [assumption|].
      intros b Hb Hin. apply in_app_or in Hin as [Hin|[<-|[]]].
      * apply (HD b); [now right | exact Hin].
      * apply Hnot. now apply list_elem_of_In.
Qed.

Lemma accepts_iff g impl func_signature h :
  no_condition_args func_signature ->
  (_validate_required_fn_args g impl func_signature h = (Ok tt, h)
   <-> accepts impl func_signature h)
  /\ snd (_validate_required_fn_args g impl func_signature h) = h.
Proof.
  intros HN. unfold accepts, has_method, well_formed_args, required_names,
    optional_names, _validate_required_fn_args.
  destruct (truthy (getattr impl (fs_name func_signature))); simpl.
  2: { split; [|reflexivity]. split; [discriminate|].
       now intros (args & (H & _) & _). }
  destruct (is_callable (getattr impl (fs_name func_signature))); simpl.
  2: { split; [|reflexivity]. split; [discriminate|].
       now intros (args & (_ & H & _) & _). }
  unfold bind at 1 3. rewrite (effective_required_args_no_condition _ _ _ _ HN).
  destruct (fullargspec_args (getattr impl (fs_name func_signature)))
    as [args|]; simpl.
  2: { split; [|reflexivity]. split; [discriminate|].
       now intros (args & (_ & _ & H) & _). }
  set (R := read_list _ h). set (O := default [] _).
  set (f := render_fn _ args). unfold bind.
  destruct (for_each_cases (check_required_arg f args) R h
              (check_required_arg_cases f args)) as [E | (e & E & _)].
  - rewrite E.
    destruct (check_formal_args_cases f R O args [] h) as [E2 | (e & E2 & _)];
      rewrite E2; (split; [|reflexivity]).
    + split; [intros _ | reflexivity]. exists args. split; [easy|].
      apply for_each_check_ok in E as [H1 H2].
      apply check_formal_args_ok in E2 as (H3 & H4 & _). easy.
    + split; [discriminate|]. intros (args' & (_ & _ & [= <-]) & _ & _ & H3 & H4).
      assert (check_formal_args f R O args [] h = (Ok tt, h)) as E3
        by (apply check_formal_args_ok; easy).
      congruence.
  - rewrite E. split; [|reflexivity]. split; [discriminate|].
    intros (args' & (_ & _ & [= <-]) & H1 & H2 & _).
    assert (for_each (check_required_arg f args) R h = (Ok tt, h)) as E3
      by (apply for_each_check_ok; easy).
    congruence.
Qed.

(** X1. A rule without conditional arguments accepts a class exactly when
    the named attribute is truthy, callable and inspectable, every required
    name is a formal parameter, ["self"] (when required) is the first
    parameter, every parameter is a required or an optional name, and no
    parameter is repeated; the store is left as it was. *)
Theorem _validate_required_fn_args_accepts g impl func_signature h :
  no_condition_args func_signature ->
  (_validate_required_fn_args g impl func_signature h = (Ok tt, h)
   <-> accepts impl func_signature h)
  /\ snd (_validate_required_fn_args g impl func_signature h) = h.
Proof. apply accepts_iff. Qed.

Lemma _validate_required_fn_args_accepts_witness :
  _validate_required_fn_args module_globals tensorflow_class
    (predict_signature 5%positive) initial_heap = (Ok tt, initial_heap).
Proof.
  apply (_validate_required_fn_args_accepts module_globals tensorflow_class
           (predict_signature 5%positive) initial_heap); [now left|].
  exists ["self"; "payload"; "headers"]. split; [easy|].
  split; [repeat constructor|]. split; [reflexivity|].
  split; [repeat constructor|].
  compute_done.
Defined.

(** ** Rejection of a signature *)

(** With the method in place and no conditional argument, validation is the
    two loops over the stored names and over the formal parameters. *)
Lemma _validate_required_fn_args_loops g impl func_signature h args :
  no_condition_args func_signature ->
  has_method impl (fs_name func_signature) args ->
  _validate_required_fn_args g impl func_signature h
  = (for_each (check_required_arg (render_fn (fs_name func_signature) args) args)
       (required_names func_signature h) ;;;
     check_formal_args (render_fn (fs_name func_signature) args)
       (required_names func_signature h) (optional_names func_signature)
       args []) h.
Proof.
  intros HN (Ht & Hc & Ha). unfold _validate_required_fn_args.
  rewrite Ht, Hc, Ha. simpl. unfold bind at 1.
  now rewrite (effective_required_args_no_condition _ _ _ _ HN).
Qed.

Lemma check_formal_args_app fn_str required_args optional_args pre rest seen h :
  Forall (fun a => supported required_args optional_args a = true) pre ->
  NoDup pre ->
  (forall a, In a pre -> ~ In a seen) ->
  check_formal_args fn_str required_args optional_args (pre ++ rest) seen h
  = check_formal_args fn_str required_args optional_args rest (seen ++ pre) h.
Proof.
  intros HF. revert seen. induction HF as [|a pre Ha HF IH]; intros seen HN HD.
  - simpl. now rewrite app_nil_r.
  - inversion HN as [|? ? Hnot HN']; subst. simpl.
    unfold supported in Ha.
    replace (negb (mem a required_args) && negb (mem a optional_args))
      with (negb (mem a required_args || mem a optional_args))
      by apply negb_orb.
    rewrite Ha. simpl.
    assert (mem a seen = false) as ->
      by (apply mem_not_In, HD; now left).
    rewrite IH; [now rewrite <- app_assoc | exact HN' |].
    intros b Hb Hin. apply in_app_or in Hin as [Hin|[<-|[]]].
    + apply (HD b); [now right | exact Hin].
    + apply Hnot. now apply list_elem_of_In.
Qed.

(** X2. When the required names are all in place, the first formal
    parameter that is neither a required nor an optional name is rejected
    with the ["is not a supported argument"] error, whatever follows it. *)
Theorem unsupported_argument_rejected g impl func_signature h pre a post :
  let args := pre ++ a :: post in
  let R := required_names func_signature h in
  let O := optional_names func_signature in
  no_condition_args func_signature ->
  has_method impl (fs_name func_signature) args ->
  Forall (fun name => mem name args = true) R ->
  (In "self" R -> head args = Some "self") ->
  Forall (fun name => supported R O name = true) pre ->
  NoDup pre ->
  supported R O a = false ->
  _validate_required_fn_args g impl func_signature h
  = (Raise (UserException
              [msg_unsupported (render_fn (fs_name func_signature) args) a]),
     h).
Proof.
  cbv zeta. intros HN HM HR Hself Hpre Hnd Ha.
  rewrite (_validate_required_fn_args_loops _ _ _ _ _ HN HM).
  rewrite (bind_ok _ _ _ _ _ (for_each_check_present _ _ _ h HR Hself)).
  rewrite check_formal_args_app; [|assumption|assumption|easy].
  simpl. unfold supported in Ha.
  replace (negb (mem a (required_names func_signature h))
           && negb (mem a (optional_names func_signature)))
    with (negb (mem a (required_names func_signature h)
                || mem a (optional_names func_signature)))
    by apply negb_orb.
  now rewrite Ha.
Qed.

Lemma unsupported_argument_rejected_witness :
  _validate_required_fn_args module_globals foo_class
    (predict_signature 7%positive) initial_heap
  = (Raise (UserException [msg_unsupported "predict(self, foo)" "foo"]),
     initial_heap).
Proof.
  apply (unsupported_argument_rejected module_globals foo_class
           (predict_signature 7%positive) initial_heap ["self"] "foo" []);
    try reflexivity.
  - now left.
  - easy.
  - repeat constructor.
  - repeat constructor.
  - compute_done.
Defined.

(** X3. When the required names are all in place, the first formal
    parameter that repeats an earlier one is rejected with the ["is
    duplicated"] error. *)
Theorem duplicated_argument_rejected g impl func_signature h pre a post :
  let args := pre ++ a :: post in
  let R := required_names func_signature h in
  let O := optional_names func_signature in
  no_condition_args func_signature ->
  has_method impl (fs_name func_signature) args ->
  Forall (fun name => mem name args = true) R ->
  (In "self" R -> head args = Some "self") ->
  Forall (fun name => supported R O name = true) pre ->
  NoDup pre ->
  In a pre ->
  _validate_required_fn_args g impl func_signature h
  = (Raise (UserException
              [msg_duplicated (render_fn (fs_name func_signature) args) a]),
     h).
Proof.
  cbv zeta. intros HN HM HR Hself Hpre Hnd Ha.
  rewrite (_validate_required_fn_args_loops _ _ _ _ _ HN HM).
  rewrite (bind_ok _ _ _ _ _ (for_each_check_present _ _ _ h HR Hself)).
  rewrite check_formal_args_app; [|assumption|assumption|easy].
  simpl.
  assert (supported (required_names func_signature h)
            (optional_names func_signature) a = true) as Hs
    by (rewrite Forall_forall in Hpre; now apply Hpre, list_elem_of_In).
  unfold supported in Hs.
  replace (negb (mem a (required_names func_signature h))
           && negb (mem a (optional_names func_signature)))
    with (negb (mem a (required_names func_signature h)
                || mem a (optional_names func_signature)))
    by apply negb_orb.
  rewrite Hs. simpl.
  assert (mem a pre = true) as -> by now apply mem_In.
  reflexivity.
Qed.

Lemma duplicated_argument_rejected_witness :
  _validate_required_fn_args module_globals repeated_class
    (predict_signature 5%positive) initial_heap
  = (Raise (UserException
              [msg_duplicated "predict(self, payload, payload)" "payload"]),
     initial_heap).
Proof.
  apply (duplicated_argument_rejected module_globals repeated_class
           (predict_signature 5%positive) initial_heap
           ["self"; "payload"] "payload" []);
    try reflexivity.
  - now left.
  - easy.
  - repeat constructor.
  - repeat constructor.
  - compute_done.
  - right. now left.
Defined.

(** X4. When ["self"] is a required name and a formal parameter but not
    the first one, and the required names before it are in place, the
    method is rejected with the ["self" must be the first argument] error. *)
Theorem misplaced_self_rejected g impl func_signature h args rpre rpost :
  no_condition_args func_signature ->
  has_method impl (fs_name func_signature) args ->
  required_names func_signature h = rpre ++ "self" :: rpost ->
  Forall (fun name => mem name args = true) rpre ->
  ~ In "self" rpre ->
  In "self" args ->
  head args <> Some "self" ->
  _validate_required_fn_args g impl func_signature h
  = (Raise (UserException
              [msg_self_first (render_fn (fs_name func_signature) args)]),
     h).
Proof.
  intros HN HM HR Hpre Hnot Hin Hhead.
  rewrite (_validate_required_fn_args_loops _ _ _ _ _ HN HM). rewrite HR.
  apply bind_raise. apply for_each_first_raise with (h1 := h).
  - now apply for_each_check_present.
  - unfold check_required_arg.
    assert (mem "self" args = true) as -> by now apply mem_In.
    simpl. destruct args as [|first rest]; [easy|].
    destruct (String.eqb_spec first "self") as [->|_]; [|reflexivity].
    now contradiction Hhead.
Qed.

Lemma misplaced_self_rejected_witness :
  _validate_required_fn_args module_globals swapped_class
    onnx_init_signature initial_heap
  = (Raise (UserException [msg_self_first "__init__(config, self)"]),
     initial_heap).
Proof.
  apply (misplaced_self_rejected module_globals swapped_class
           onnx_init_signature initial_heap ["config"; "self"] []
           ["onnx_client"; "config"]);
    try reflexivity.
  - now left.
  - easy.
  - constructor.
  - easy.
  - right. now left.
  - discriminate.
Defined.

(** ** Acceptance by a table *)

Lemma for_each_accepts g impl rules h :
  Forall no_condition_args rules ->
  for_each (_validate_required_fn_args g impl) rules h = (Ok tt, h)
  <-> Forall (fun fs => accepts impl fs h) rules.
Proof.
  induction 1 as [|fs rules Hfs HF IH]; simpl.
  - split; [constructor | reflexivity].
  - destruct (accepts_iff g impl fs h Hfs) as [Hiff Hsnd].
    unfold bind.
    destruct (_validate_required_fn_args g impl fs h) as [[[]|e] h1] eqn:E;
      simpl in Hsnd; subst h1.
    + rewrite IH. split.
      * intros H. constructor; [now apply Hiff | exact H].
      * intros H. now inversion H.
    + split; [discriminate|]. intros H. inversion H as [|? ? Hacc _]; subst.
      apply Hiff in Hacc. discriminate.
Qed.

(** X5. A table whose conditional rules carry their predicate, and whose
    selected rules name no conditional argument, validates a class exactly
    when each selected rule (present optional, required, triggered
    conditional) accepts it. *)
Theorem _validate_impl_accepts g impl impl_req api_spec h :
  conditions_present impl_req ->
  Forall no_condition_args (selected_rules impl impl_req api_spec) ->
  _validate_impl g impl impl_req api_spec h = (Ok tt, h)
  <-> Forall (fun fs => accepts impl fs h)
        (selected_rules impl impl_req api_spec).
Proof.
  intros HC HN. rewrite (_validate_impl_selected _ _ _ _ _ HC).
  now apply for_each_accepts.
Qed.

Lemma _validate_impl_accepts_witness :
  _validate_impl module_globals tensorflow_class TENSORFLOW_CLASS_VALIDATION
    tensorflow_spec initial_heap
  = (Ok tt, initial_heap).
Proof.
  apply (_validate_impl_accepts module_globals tensorflow_class
           TENSORFLOW_CLASS_VALIDATION tensorflow_spec initial_heap).
  - constructor.
  - repeat constructor.
  - repeat constructor.
    + exists ["self"; "tensorflow_client"; "config"]. split; [easy|].
      split; [repeat constructor|]. split; [reflexivity|].
      split; [repeat constructor | compute_done].
    + exists ["self"; "payload"; "headers"]. split; [easy|].
      split; [repeat constructor|]. split; [reflexivity|].
      split; [repeat constructor | compute_done].
Defined.

(** X6. In the file as written no validation, passing or failing, changes
    a list that a contract table stores. *)
Theorem validation_keeps_the_tables impl impl_req api_spec h :
  snd (_validate_impl module_globals impl impl_req api_spec h) = h.
Proof.
  destruct (_validate_impl module_globals impl impl_req api_spec h)
    as [r h'] eqn:E.
  simpl. now apply _validate_impl_heap in E.
Qed.

(** ** Class resolution on a module *)

Lemma elem_of_getmembers_isclass (impl : Module) name c :
  (name, c) ∈ getmembers_isclass impl <-> impl !! name = Some (AClass c).
Proof.
  unfold getmembers_isclass. rewrite list_elem_of_omap. split.
  - intros ([k [c'|v]] & Hin & E); simpl in E; [|discriminate].
    injection E as <- <-. now apply elem_of_map_to_list in Hin.
  - intros H. exists (name, AClass c). split; [|reflexivity].
    now apply elem_of_map_to_list.
Qed.

Lemma matching_elem_of target classes class_df :
  class_df ∈ matching target classes
  <-> class_df ∈ classes /\ class_df.1 = target.
Proof.
  unfold matching. rewrite !list_elem_of_In, filter_In.
  now rewrite String.eqb_eq.
Qed.

Lemma matching_at_most_one target (classes : list (string * Class)) :
  NoDup classes.*1 -> (length (matching target classes) <= 1)%nat.
Proof.
  induction classes as [|[n c] rest IH]; simpl; [lia|].
  intros HN. inversion HN as [|? ? Hnot HN']; subst.
  destruct (String.eqb_spec n target) as [->|_]; [|now apply IH].
  simpl. destruct (matching target rest) as [|[n' c'] l] eqn:E; [simpl; lia|].
  exfalso. apply Hnot.
  assert ((n', c') ∈ matching target rest) as Hin by (rewrite E; now left).
  apply matching_elem_of in Hin as [Hin <-].
  apply list_elem_of_fmap. now exists (n', c').
Qed.

Lemma resolve_class_lookup (impl : Module) target h :
  resolve_class (Some target) (getmembers_isclass impl) h
  = (match impl !! target with
     | Some (AClass c) => Ok c
     | _ => Raise (UserException [target +:+ " class is not defined"])
     end, h).
Proof.
  rewrite resolve_class_matching.
  pose proof (matching_at_most_one target _ (getmembers_isclass_NoDup impl))
    as Hlen.
  destruct (matching target (getmembers_isclass impl)) as [|[n c] [|b l]] eqn:E.
  - destruct (impl !! target) as [[c|v]|] eqn:L; try reflexivity.
    apply elem_of_getmembers_isclass in L.
    assert ((target, c) ∈ matching target (getmembers_isclass impl)) as Hin
      by now apply matching_elem_of.
    rewrite E in Hin. now apply elem_of_nil in Hin.
  - assert ((n, c) ∈ matching target (getmembers_isclass impl)) as Hin
      by (rewrite E; now left).
    apply matching_elem_of in Hin as [Hin Hn]. simpl in Hn. subst n.
    apply elem_of_getmembers_isclass in Hin. now rewrite Hin.
  - simpl in Hlen. lia.
Qed.


(** ** Errors of [class_impl] *)

(** X8. Every exception that leaves [class_impl] is either a user error
    whose first message is ["error in <path>"], or an exception that is no
    Cortex exception; [class_impl] leaves the store as it was. *)
Theorem class_impl_names_the_file g w self project_dir h :
  exists e, class_impl g w self project_dir h = (Raise e, h)
            /\ names_the_file (self_path self) e.
Proof.
  unfold class_impl, try_wrap, try_except. unfold bind at 1.
  destruct (_load_module_cases w self "cortex_predictor"
              (path_join project_dir (self_path self)) h)
    as [[m E]|[(e & _ & E)|(e & Hex & E)]];
    rewrite E; simpl.
  2: { eexists. split; reflexivity. }
  2: { rewrite Hex. exists e. split; [reflexivity|].
       destruct e; try discriminate Hex; exact I. }
  unfold bind at 1.
  destruct (resolve_class (fst <$> class_contract self)
              (getmembers_isclass m) h) as [[c|e] h1] eqn:ER.
  - pose proof (resolve_class_heap _ _ _ _ _ ER) as ->.
    unfold bind at 1.
    destruct (class_contract self) as [[t v]|]; simpl.
    + unfold bind at 1. rewrite getattr_self__api_spec. simpl.
      eexists. split; [reflexivity | exact I].
    + eexists. split; [reflexivity | exact I].
  - destruct (resolve_class_raises _ _ _ _ _ ER) as (H1 & H2 & ->).
    destruct e; simpl; eexists; (split; [reflexivity|]); try exact I.
    + reflexivity.
    + exact H1.
Qed.

(** X9. When the module fails to load, [class_impl] raises the error of
    the loader with ["error in <path>"] put before its messages, and goes
    no further. *)
Theorem class_impl_load_failure g w self project_dir h msgs :
  _load_module w self "cortex_predictor"
    (path_join project_dir (self_path self)) h
  = (Raise (UserException msgs), h) ->
  class_impl g w self project_dir h
  = (Raise (UserException (("error in " +:+ self_path self) :: msgs)), h).
Proof.
  intros E. unfold class_impl, try_wrap, try_except. unfold bind at 1.
  now rewrite E.
Qed.

Lemma class_impl_load_failure_witness :
  class_impl module_globals empty_world
    (Predictor__init__ "local" "/mnt/model" plain_spec) "/mnt/project"
    initial_heap
  = (Raise (UserException ["error in p.py"; "No such file or directory"]),
     initial_heap).
Proof.
  apply (class_impl_load_failure module_globals empty_world
           (Predictor__init__ "local" "/mnt/model" plain_spec) "/mnt/project"
           initial_heap ["No such file or directory"]).
  reflexivity.
Defined.

(** ** Snapshots *)

Lemma setattr_module_ordinary w (impl : Module) name value :
  ~ In name special_names ->
  setattr_module w impl (KStr name) value = Ok (<[name := value]> impl).
Proof.
  intros Hn. unfold setattr_module.
  destruct (String.eqb_spec name "__dict__") as [->|_].
  { exfalso. apply Hn. now left. }
  destruct (String.eqb_spec name "__class__") as [->|_]; [|reflexivity].
  exfalso. apply Hn. right. now left.
Qed.

Lemma setattr_all_cons w (impl : Module) key value rest h :
  setattr_all w impl ((key, value) :: rest) h
  = match setattr_module w impl key value with
    | Ok impl' => setattr_all w impl' rest h
    | Raise e => (Raise e, h)
    end.
Proof. reflexivity. Qed.

Lemma setattr_all_str w (impl : Module) kvs h :
  NoDup kvs.*1 ->
  ordinary_names kvs ->
  setattr_all w impl (str_items kvs) h = (Ok (list_to_map kvs ∪ impl), h).
Proof.
  revert impl. induction kvs as [|[k v] rest IH]; intros impl HN HO.
  - simpl. now rewrite (left_id_L ∅ (∪)).
  - inversion HN as [|? ? Hnot HN']; subst.
    inversion HO as [|? ? Hk HO']; subst. simpl in Hk.
    change (str_items ((k, v) :: rest)) with ((KStr k, v) :: str_items rest).
    rewrite setattr_all_cons, (setattr_module_ordinary _ _ _ _ Hk).
    rewrite (IH _ HN' HO'). simpl.
    rewrite <- insert_union_r
      by now apply not_elem_of_list_to_map_1.
    now rewrite insert_union_l.
Qed.

(** X10. A snapshot round trip: when the pickled object is a dictionary
    whose keys are strings other than the special names, the loader returns
    the fresh module with the items of the dictionary bound over its five
    attributes: each item is found under its name, every other name is as
    in a fresh module, and a class stored under the target name is the class
    that resolution then returns. *)
Theorem pickle_snapshot_round_trip w self module_name impl_path h f kvs :
  endswith impl_path ".pickle" = true ->
  w_open w impl_path = Ok f ->
  w_dill_load w f = Ok (PDict (str_items kvs)) ->
  NoDup kvs.*1 ->
  ordinary_names kvs ->
  let impl : Module := list_to_map kvs ∪ new_module module_name in
  _load_module w self module_name impl_path h = (Ok impl, h)
  /\ (forall name v, In (name, v) kvs -> impl !! name = Some v)
  /\ (forall name, ~ In name kvs.*1 ->
                   impl !! name = new_module module_name !! name)
  /\ (forall target c,
        In (target, AClass c) kvs ->
        resolve_class (Some target) (getmembers_isclass impl) h = (Ok c, h)).
Proof.
  intros Hsuf Hopen Hload HN HO. cbv zeta.
  assert (forall name v, In (name, v) kvs ->
            (list_to_map kvs ∪ new_module module_name : Module) !! name
            = Some v) as Hfound.
  { intros name v Hin. apply lookup_union_Some_l.
    apply elem_of_list_to_map_1; [exact HN | now apply list_elem_of_In]. }
  split; [|split; [exact Hfound|split]].
  - unfold _load_module. rewrite Hsuf. unfold try_except, bind, lift.
    rewrite Hopen, Hload. now rewrite (setattr_all_str _ _ _ _ HN HO).
  - intros name Hn. apply lookup_union_r.
    apply not_elem_of_list_to_map_1. now rewrite list_elem_of_In.
  - intros target c Hin. rewrite resolve_class_lookup.
    now rewrite (Hfound _ _ Hin).
Qed.

Lemma pickle_snapshot_round_trip_witness :
  _load_module (pickle_world
                  (PDict (str_items [("PythonPredictor", AClass plain_class);
                                     ("VERSION", AOther (py_data true))])))
    (Predictor__init__ "local" "/mnt/model" plain_spec)
    "cortex_predictor" "/mnt/project/predictor.pickle" initial_heap
  = (Ok (list_to_map [("PythonPredictor", AClass plain_class);
                      ("VERSION", AOther (py_data true))]
         ∪ new_module "cortex_predictor"), initial_heap).
Proof.
  apply (pickle_snapshot_round_trip
           (pickle_world
              (PDict (str_items [("PythonPredictor", AClass plain_class);
                                 ("VERSION", AOther (py_data true))])))
           (Predictor__init__ "local" "/mnt/model" plain_spec)
           "cortex_predictor" "/mnt/project/predictor.pickle" initial_heap
           "bytes"); try reflexivity.
  - compute_done.
  - repeat constructor; compute_done.
Defined.

Lemma setattr_all_app w (impl : Module) kvs rest h :
  ordinary_names kvs ->
  exists impl', setattr_all w impl (str_items kvs ++ rest) h
                = setattr_all w impl' rest h.
Proof.
  intros HO. revert impl.
  induction HO as [|[k v] kvs Hk HO IH]; intros impl.
  - now exists impl.
  - simpl in Hk.
    change (str_items ((k, v) :: kvs) ++ rest)
      with ((KStr k, v) :: (str_items kvs ++ rest)).
    rewrite setattr_all_cons, (setattr_module_ordinary _ _ _ _ Hk). apply IH.
Qed.

(** X11. When the items of a pickled dictionary, taken in order, are bound
    under ordinary string keys up to a key that is no string, the loader
    raises the wrapped error of [setattr], which names the type of the key,
    whatever the items after it. *)
Theorem pickle_non_string_key w self module_name impl_path h f kvs type_name
    v rest :
  endswith impl_path ".pickle" = true ->
  w_open w impl_path = Ok f ->
  w_dill_load w f
  = Ok (PDict (str_items kvs ++ (KOther type_name, v) :: rest)) ->
  ordinary_names kvs ->
  _load_module w self module_name impl_path h
  = (Raise (UserException
              ["unable to load pickle";
               "attribute name must be string, not '" +:+ type_name +:+ "'"]),
     h).
Proof.
  intros Hsuf Hopen Hload HO. unfold _load_module. rewrite Hsuf.
  unfold try_except, bind, lift. rewrite Hopen, Hload.
  destruct (setattr_all_app w (new_module module_name) kvs
              ((KOther type_name, v) :: rest) h HO) as [m ->].
  reflexivity.
Qed.

Lemma pickle_non_string_key_witness :
  _load_module (pickle_world
                  (PDict (str_items [("PythonPredictor", AClass plain_class)]
                          ++ [(KOther "int", AOther (py_data true))])))
    (Predictor__init__ "local" "/mnt/model" plain_spec)
    "cortex_predictor" "/mnt/project/predictor.pickle" initial_heap
  = (Raise (UserException
              ["unable to load pickle";
               "attribute name must be string, not 'int'"]),
     initial_heap).
Proof.
  apply (pickle_non_string_key
           (pickle_world
              (PDict (str_items [("PythonPredictor", AClass plain_class)]
                      ++ [(KOther "int", AOther (py_data true))])))
           (Predictor__init__ "local" "/mnt/model" plain_spec)
           "cortex_predictor" "/mnt/project/predictor.pickle" initial_heap
           "bytes" [("PythonPredictor", AClass plain_class)] "int"
           (AOther (py_data true)) []); try reflexivity.
  repeat constructor; compute_done.
Defined.

(** A pickled dictionary that binds [__dict__] cannot be loaded. *)
Example pickle_readonly_name :
  _load_module (pickle_world
                  (PDict [(KStr "__dict__", AOther (py_data true))]))
    (Predictor__init__ "local" "/mnt/model" plain_spec)
    "cortex_predictor" "/mnt/project/predictor.pickle" initial_heap
  = (Raise (UserException ["unable to load pickle"; "readonly attribute"]),
     initial_heap).
Proof. reflexivity. Qed.

(** ** Clients *)

(** X12. [initialize_client] never returns [None]: for every kind, host and
    port it returns a client or raises, and it leaves the store as it was. *)
Theorem initialize_client_never_none self host port h :
  fst (initialize_client self host port h) <> Ok None
  /\ snd (initialize_client self host port h) = h.
Proof.
  unfold initialize_client.
  destruct self as [p t pa c md a]; simpl.
  destruct t; simpl; try (split; [discriminate | reflexivity]);
    destruct host as [x|]; try (split; [discriminate | reflexivity]);
    destruct port as [y|]; split; try discriminate; reflexivity.
Qed.

(** X13. For the two tensor-serving kinds a host or a port left at its
    default [None] makes the concatenation of the address raise
    [TypeError]; no client is constructed. *)
Theorem initialize_client_missing_address self host port h :
  self_type self = TensorFlowPredictorType
  \/ self_type self = TensorFlowNeuronPredictorType ->
  host = None \/ port = None ->
  exists msg, initialize_client self host port h = (Raise (TypeError msg), h).
Proof.
  intros Ht Hnone. unfold initialize_client.
  destruct self as [p t pa c md a]; simpl in *.
  destruct Ht as [-> | ->]; simpl;
    (destruct host as [x|]; [|now eexists]);
    (destruct port as [y|]; [|now eexists]);
    now destruct Hnone.
Qed.

Lemma initialize_client_missing_address_witness :
  exists msg,
    initialize_client (Predictor__init__ "aws" "/mnt/model" tensorflow_spec)
      None None initial_heap
    = (Raise (TypeError msg), initial_heap).
Proof.
  apply (initialize_client_missing_address
           (Predictor__init__ "aws" "/mnt/model" tensorflow_spec) None None
           initial_heap).
  - left. reflexivity.
  - left. reflexivity.
Defined.

(** ** Model paths *)

Lemma path_join_relative_under (a b : string) :
  startswith b "/" = false -> exists rest, path_join a b = a +:+ rest.
Proof.
  intros Hb. unfold path_join. rewrite Hb.
  destruct (String.eqb_spec a EmptyString) as [->|_]; [now exists b|].
  destruct (endswith a "/"); [now exists b | now exists ("/" +:+ b)].
Qed.

Lemma basename_no_slash (p : string) : has_slash (basename p) = false.
Proof.
  induction p as [|c rest IH]; [reflexivity|].
  cbn [basename]. destruct (has_slash (String c rest)) eqn:E; [exact IH|exact E].
Qed.

Lemma startswith_slash (s : string) :
  startswith s "/" = true -> has_slash s = true.
Proof.
  destruct s as [|c rest]; [discriminate|].
  unfold startswith.
  change (String.prefix "/" (String c rest))
    with (if ascii_dec "/" c then String.prefix EmptyString rest else false).
  destruct (ascii_dec "/" c) as [<-|]; intros H; [reflexivity | discriminate H].
Qed.

Lemma basename_suffix (p : string) :
  exists dir, p = dir +:+ basename p
              /\ (dir = EmptyString \/ exists d, dir = d +:+ "/").
Proof.
  induction p as [|c rest IH].
  - exists EmptyString. split; [reflexivity | now left].
  - cbn [basename]. destruct (has_slash (String c rest)) eqn:E.
    + destruct IH as (dir & Hrest & Hdir).
      exists (String c dir). split.
      * change (String c rest = String c (dir +:+ basename rest)).
        now rewrite <- Hrest.
      * right. destruct Hdir as [->|(d & ->)]; [|now exists (String c d)].
        exists EmptyString. cbn [has_slash] in E.
        destruct (Ascii.eqb_spec c "/") as [->|_]; [reflexivity|].
        change (EmptyString +:+ basename rest) with (basename rest) in Hrest.
        rewrite Hrest, basename_no_slash in E. discriminate E.
    + exists EmptyString. split; [reflexivity | now left].
Qed.

(** X14. For a model name that is a relative path, the base path of a
    model lies under the model directory of the predictor, for every kind
    and every model path.  For the kinds other than [onnx] it is the model
    name joined to the model directory, whatever the model path; for the
    [onnx] kind the last component of the model path, and nothing else of
    it, is joined to that. *)
Theorem _compute_model_basepath_under_model_dir self model_path model_name :
  startswith model_name "/" = false ->
  let base := path_join (self_model_dir self) model_name in
  let result := _compute_model_basepath self model_path model_name in
  (exists rest, result = self_model_dir self +:+ rest)
  /\ (type_eq_str (self_type self) "onnx" = false -> result = base)
  /\ (type_eq_str (self_type self) "onnx" = true ->
      result = path_join base (basename model_path)
      /\ (exists rest, result = base +:+ rest)
      /\ has_slash (basename model_path) = false
      /\ exists dir, model_path = dir +:+ basename model_path
                     /\ (dir = EmptyString \/ exists d, dir = d +:+ "/")).
Proof.
  intros Hrel. cbv zeta. unfold _compute_model_basepath.
  assert (startswith (basename model_path) "/" = false) as Hbase.
  { destruct (startswith (basename model_path) "/") eqn:E; [|reflexivity].
    apply startswith_slash in E. now rewrite basename_no_slash in E. }
  destruct (path_join_relative_under (self_model_dir self) model_name Hrel)
    as [r1 E1].
  destruct (path_join_relative_under
              (path_join (self_model_dir self) model_name)
              (basename model_path) Hbase) as [r2 E2].
  destruct (type_eq_str (self_type self) "onnx").
  - split; [|split; [discriminate|]].
    + exists (r1 +:+ r2). rewrite E2, E1. apply string_app_assoc.
    + intros _. split; [reflexivity|]. split; [now exists r2|].
      split; [apply basename_no_slash | apply basename_suffix].
  - split; [now exists r1|]. split; [reflexivity | discriminate].
Qed.

Lemma _compute_model_basepath_under_model_dir_witness :
  _compute_model_basepath (Predictor__init__ "aws" "/mnt/model" onnx_spec)
    "s3://bucket/dir/model.onnx" "resnet"
  = path_join (path_join "/mnt/model" "resnet")
      (basename "s3://bucket/dir/model.onnx").
Proof.
  apply (_compute_model_basepath_under_model_dir
           (Predictor__init__ "aws" "/mnt/model" onnx_spec)
           "s3://bucket/dir/model.onnx" "resnet" eq_refl).
  reflexivity.
Defined.

Example model_basepath_onnx :
  _compute_model_basepath (Predictor__init__ "aws" "/mnt/model" onnx_spec)
    "s3://bucket/dir/model.onnx" "resnet"
  = "/mnt/model/resnet/model.onnx"
  /\ _compute_model_basepath
       (Predictor__init__ "aws" "/mnt/model" tensorflow_spec)
       "s3://bucket/dir/model" "resnet"
     = "/mnt/model/resnet".
Proof. split; reflexivity. Qed.

(** ** A module without the class *)



(** ** Resolution by the bound name *)



